(** * Session-bounded stream buffering and broadcast: server/run.py

    A shallow embedding of the session state machine of [server/run.py]
    (the module-level session variables, [receive_co2_raw_data],
    [check_stream_timeout], [save_buffer_to_npy], [get_stats] and
    [ConnectionManager]) and the properties of its specification.

    Conventions.
    - A [datetime] is a number of microseconds (the resolution of Python's
      [datetime]); [elapsed > STREAM_TIMEOUT_SEC] is compared exactly.
    - A reading is a Python [int], hence a [Z]; [np.array(.., dtype=np.int32)]
      is partial and raises [OverflowError] outside the 32-bit range (NumPy 2).
    - [print] appends a line to [stdout]; [np.save] appends its call, with
      its outcome, to [np_save_log]; [send_text] appends to [ws_sent].
    - Every critical section of the source ([async with lock]) contains no
      [await], so it runs atomically on the event loop: a request handler is
      one step, and a [check_stream_timeout] task is resumed one step at a
      time, from one [await asyncio.sleep] to the next.
    - A [broadcast_data] task holds no lock: it is resumed one step at a
      time, from one [await connection.send_text] to the next, and any other
      task can run in between. It walks the list [active_connections] as it
      is at each step, and it was given a list object that may be the one
      bound to [data_stream_buffer]. *)

From Stdlib Require Import ZArith QArith Lia Ascii.
From stdpp Require Import base list strings pretty.

Close Scope Q_scope.
Open Scope Z_scope.

(** ** Data model *)

Definition WebSocket := nat.
Definition datetime := Z.

Inductive exn :=
  | HTTPException (status_code : Z) (detail : string)
  | OverflowError
  | ValueError
  | OSError
  | WebSocketError.

Inductive result (A : Type) :=
  | Ok (a : A)
  | Raise (e : exn).
Arguments Ok {A} a.
Arguments Raise {A} e.

Inductive log_line :=
  | LogWsConnected (total : nat)
  | LogWsDisconnected (total : nat)
  | LogWsBroadcastError (e : exn)
  | LogSessionStarted
  | LogSessionTimeout (elapsed : Z)
  | LogNpyNoData
  | LogNpySaved (file : Z) (points : nat) (avg : Q) (lo hi : Z)
  | LogNpyError (e : exn)
  | LogData (batches points : Z) (avg : Q).

(** A [check_stream_timeout] task of the event loop: created and not yet
    run, suspended in [await asyncio.sleep(1.0)], returned, or ended by an
    exception. *)
Inductive task_state :=
  | Created
  | Sleeping
  | Finished
  | Failed (e : exn).

(** The list object a [broadcast_data] task was given as [data]: a list
    of its own, or the object bound to [data_stream_buffer] (the request that
    starts a session binds its [raw_z_values_list] to the buffer and hands
    the same object to the task). *)
Inductive payload :=
  | OwnList (values : list Z)
  | BufferObject.

(** A [broadcast_data] task of the event loop: created and not yet run,
    suspended in [await connection.send_text(message)] inside the first
    loop, returned, or ended by an exception. A suspended task holds the
    serialized message, the position of the iterator over
    [active_connections], the list [disconnected] and the connection it is
    sending to. *)
Inductive broadcast_task :=
  | BCreated (data : payload)
  | BSending (message : string) (next : nat) (disconnected : list WebSocket)
      (connection : WebSocket)
  | BFinished
  | BFailed (e : exn).

Record ConnectionManager := { active_connections : list WebSocket }.

Record Server := {
  data_stream_buffer : list Z;
  last_data_time : option datetime;
  is_receiving : bool;
  timeout_task : option nat;
  total_batches_received : Z;
  total_points_received : Z;
  manager : ConnectionManager;
  tasks : list task_state;
  broadcast_tasks : list broadcast_task;
  np_save_log : list (Z * list Z * bool);
  ws_sent : list (WebSocket * string);
  stdout : list log_line
}.

Definition STREAM_TIMEOUT_SEC : Z := 5.
Definition usec : Z := 1000000.

(** The state of the module once loaded. *)
Definition initial : Server := {|
  data_stream_buffer := [];
  last_data_time := None;
  is_receiving := false;
  timeout_task := None;
  total_batches_received := 0;
  total_points_received := 0;
  manager := {| active_connections := [] |};
  tasks := [];
  broadcast_tasks := [];
  np_save_log := [];
  ws_sent := [];
  stdout := []
|}.

(** Assignments to the module-level variables. *)

Definition set_data_stream_buffer (v : list Z) (s : Server) : Server :=
  {| data_stream_buffer := v;
     last_data_time := last_data_time s;
     is_receiving := is_receiving s;
     timeout_task := timeout_task s;
     total_batches_received := total_batches_received s;
     total_points_received := total_points_received s;
     manager := manager s;
     tasks := tasks s;
     broadcast_tasks := broadcast_tasks s;
     np_save_log := np_save_log s;
     ws_sent := ws_sent s;
     stdout := stdout s |}.

Definition set_last_data_time (v : option datetime) (s : Server) : Server :=
  {| data_stream_buffer := data_stream_buffer s;
     last_data_time := v;
     is_receiving := is_receiving s;
     timeout_task := timeout_task s;
     total_batches_received := total_batches_received s;
     total_points_received := total_points_received s;
     manager := manager s;
     tasks := tasks s;
     broadcast_tasks := broadcast_tasks s;
     np_save_log := np_save_log s;
     ws_sent := ws_sent s;
     stdout := stdout s |}.

Definition set_is_receiving (v : bool) (s : Server) : Server :=
  {| data_stream_buffer := data_stream_buffer s;
     last_data_time := last_data_time s;
     is_receiving := v;
     timeout_task := timeout_task s;
     total_batches_received := total_batches_received s;
     total_points_received := total_points_received s;
     manager := manager s;
     tasks := tasks s;
     broadcast_tasks := broadcast_tasks s;
     np_save_log := np_save_log s;
     ws_sent := ws_sent s;
     stdout := stdout s |}.

Definition set_timeout_task (v : option nat) (s : Server) : Server :=
  {| data_stream_buffer := data_stream_buffer s;
     last_data_time := last_data_time s;
     is_receiving := is_receiving s;
     timeout_task := v;
     total_batches_received := total_batches_received s;
     total_points_received := total_points_received s;
     manager := manager s;
     tasks := tasks s;
     broadcast_tasks := broadcast_tasks s;
     np_save_log := np_save_log s;
     ws_sent := ws_sent s;
     stdout := stdout s |}.

Definition set_total_batches_received (v : Z) (s : Server) : Server :=
  {| data_stream_buffer := data_stream_buffer s;
     last_data_time := last_data_time s;
     is_receiving := is_receiving s;
     timeout_task := timeout_task s;
     total_batches_received := v;
     total_points_received := total_points_received s;
     manager := manager s;
     tasks := tasks s;
     broadcast_tasks := broadcast_tasks s;
     np_save_log := np_save_log s;
     ws_sent := ws_sent s;
     stdout := stdout s |}.

Definition set_total_points_received (v : Z) (s : Server) : Server :=
  {| data_stream_buffer := data_stream_buffer s;
     last_data_time := last_data_time s;
     is_receiving := is_receiving s;
     timeout_task := timeout_task s;
     total_batches_received := total_batches_received s;
     total_points_received := v;
     manager := manager s;
     tasks := tasks s;
     broadcast_tasks := broadcast_tasks s;
     np_save_log := np_save_log s;
     ws_sent := ws_sent s;
     stdout := stdout s |}.

Definition set_active_connections (v : list WebSocket) (s : Server) : Server :=
  {| data_stream_buffer := data_stream_buffer s;
     last_data_time := last_data_time s;
     is_receiving := is_receiving s;
     timeout_task := timeout_task s;
     total_batches_received := total_batches_received s;
     total_points_received := total_points_received s;
     manager := {| active_connections := v |};
     tasks := tasks s;
     broadcast_tasks := broadcast_tasks s;
     np_save_log := np_save_log s;
     ws_sent := ws_sent s;
     stdout := stdout s |}.

Definition set_tasks (v : list task_state) (s : Server) : Server :=
  {| data_stream_buffer := data_stream_buffer s;
     last_data_time := last_data_time s;
     is_receiving := is_receiving s;
     timeout_task := timeout_task s;
     total_batches_received := total_batches_received s;
     total_points_received := total_points_received s;
     manager := manager s;
     tasks := v;
     broadcast_tasks := broadcast_tasks s;
     np_save_log := np_save_log s;
     ws_sent := ws_sent s;
     stdout := stdout s |}.

Definition set_broadcast_tasks (v : list broadcast_task) (s : Server) : Server :=
  {| data_stream_buffer := data_stream_buffer s;
     last_data_time := last_data_time s;
     is_receiving := is_receiving s;
     timeout_task := timeout_task s;
     total_batches_received := total_batches_received s;
     total_points_received := total_points_received s;
     manager := manager s;
     tasks := tasks s;
     broadcast_tasks := v;
     np_save_log := np_save_log s;
     ws_sent := ws_sent s;
     stdout := stdout s |}.

Definition set_np_save_log (v : list (Z * list Z * bool)) (s : Server) : Server :=
  {| data_stream_buffer := data_stream_buffer s;
     last_data_time := last_data_time s;
     is_receiving := is_receiving s;
     timeout_task := timeout_task s;
     total_batches_received := total_batches_received s;
     total_points_received := total_points_received s;
     manager := manager s;
     tasks := tasks s;
     broadcast_tasks := broadcast_tasks s;
     np_save_log := v;
     ws_sent := ws_sent s;
     stdout := stdout s |}.

Definition set_ws_sent (v : list (WebSocket * string)) (s : Server) : Server :=
  {| data_stream_buffer := data_stream_buffer s;
     last_data_time := last_data_time s;
     is_receiving := is_receiving s;
     timeout_task := timeout_task s;
     total_batches_received := total_batches_received s;
     total_points_received := total_points_received s;
     manager := manager s;
     tasks := tasks s;
     broadcast_tasks := broadcast_tasks s;
     np_save_log := np_save_log s;
     ws_sent := v;
     stdout := stdout s |}.

Definition set_stdout (v : list log_line) (s : Server) : Server :=
  {| data_stream_buffer := data_stream_buffer s;
     last_data_time := last_data_time s;
     is_receiving := is_receiving s;
     timeout_task := timeout_task s;
     total_batches_received := total_batches_received s;
     total_points_received := total_points_received s;
     manager := manager s;
     tasks := tasks s;
     broadcast_tasks := broadcast_tasks s;
     np_save_log := np_save_log s;
     ws_sent := ws_sent s;
     stdout := v |}.

(** An assignment [data_stream_buffer = v] binds the variable to another
    list object. A task that was given the old object keeps it, with the
    values it holds at that moment; [extend] on the contrary changes the
    object in place, for every holder. *)
Definition keep_object (values : list Z) (t : broadcast_task)
  : broadcast_task :=
  match t with
  | BCreated BufferObject => BCreated (OwnList values)
  | _ => t
  end.

Definition rebind_data_stream_buffer (v : list Z) (s : Server) : Server :=
  set_data_stream_buffer v
    (set_broadcast_tasks
       (map (keep_object (data_stream_buffer s)) (broadcast_tasks s)) s).

(** The values of the object [data] as they are now. *)
Definition payload_values (data : payload) (s : Server) : list Z :=
  match data with
  | OwnList values => values
  | BufferObject => data_stream_buffer s
  end.

(** ** Statements that read and write the server state and may raise *)

Definition M (A : Type) : Type := Server -> result A * Server.

Definition ret {A} (a : A) : M A := fun s => (Ok a, s).

Definition bind {A B} (m : M A) (k : A -> M B) : M B :=
  fun s =>
    match m s with
    | (Ok a, s') => k a s'
    | (Raise e, s') => (Raise e, s')
    end.

Definition raise {A} (e : exn) : M A := fun s => (Raise e, s).

Definition try_except {A} (m : M A) (handler : exn -> M A) : M A :=
  fun s =>
    match m s with
    | (Ok a, s') => (Ok a, s')
    | (Raise e, s') => handler e s'
    end.

Definition get : M Server := fun s => (Ok s, s).
Definition modify (f : Server -> Server) : M unit := fun s => (Ok tt, f s).
Definition lift {A} (r : result A) : M A := fun s => (r, s).

#[global] Instance M_ret : MRet M := @ret.
#[global] Instance M_bind : MBind M := fun A B k m => bind m k.

Definition print (l : log_line) : M unit :=
  modify (fun s => set_stdout (stdout s ++ [l]) s).

(** ** NumPy and json *)

Definition int32 (z : Z) : Prop := -2147483648 <= z <= 2147483647.
Definition is_int32 (z : Z) : bool :=
  (-2147483648 <=? z) && (z <=? 2147483647).

(** [np.array(l, dtype=np.int32)] *)
Definition np_array_int32 (l : list Z) : result (list Z) :=
  if forallb is_int32 l then Ok l else Raise OverflowError.

Definition np_sum (a : list Z) : Z := foldr Z.add 0 a.

(** [np.min], [np.max]: a [ValueError] on an empty array. *)
Definition np_min (a : list Z) : result Z :=
  match a with
  | [] => Raise ValueError
  | x :: r => Ok (foldl Z.min x r)
  end.

Definition np_max (a : list Z) : result Z :=
  match a with
  | [] => Raise ValueError
  | x :: r => Ok (foldl Z.max x r)
  end.

(** [np.mean]: the exact quotient, which NumPy rounds to a float. *)
Definition np_mean (a : list Z) : Q :=
  Qdiv (inject_Z (np_sum a)) (inject_Z (Z.of_nat (length a))).

(** The square of [np.std]: the mean of the squared integer deviations
    [(n*x - sum)^2], scaled back by [n^2]. *)
Definition np_var (a : list Z) : Q :=
  let n := Z.of_nat (length a) in
  Qdiv (inject_Z (np_sum (map (fun x => (n * x - np_sum a) ^ 2) a)))
       (inject_Z (n * n * n)).

(** [json.dumps] of a list of integers. *)
Fixpoint json_items (l : list Z) : string :=
  match l with
  | [] => ""
  | [x] => pretty x
  | x :: r => pretty x +:+ ", " +:+ json_items r
  end.

Definition json_dumps (l : list Z) : string := "[" +:+ json_items l +:+ "]".

(** ** ConnectionManager *)

(** [connect]: the handshake [websocket.accept()] and the registration. *)
Definition connect (websocket : WebSocket) : M unit :=
  s ← get;
  modify (set_active_connections
            (active_connections (manager s) ++ [websocket]));;
  s ← get;
  print (LogWsConnected (length (active_connections (manager s)))).

(** [list.remove]: the first occurrence. *)
Fixpoint list_remove (x : WebSocket) (l : list WebSocket) : list WebSocket :=
  match l with
  | [] => []
  | y :: r => if decide (x = y) then r else y :: list_remove x r
  end.

Definition disconnect (websocket : WebSocket) : M unit :=
  s ← get;
  if decide (websocket ∈ active_connections (manager s)) then
    modify (set_active_connections
              (list_remove websocket (active_connections (manager s))));;
    s ← get;
    print (LogWsDisconnected (length (active_connections (manager s))))
  else mret tt.

(** [connection.send_text(message)]: delivered when the channel is open,
    an exception otherwise. *)
Definition send_text (channel_open : bool) (connection : WebSocket)
    (message : string) : M unit :=
  if channel_open then
    modify (fun s => set_ws_sent (ws_sent s ++ [(connection, message)]) s)
  else raise WebSocketError.

(** The second loop: [for conn in disconnected: self.disconnect(conn)]. *)
Fixpoint disconnect_all (disconnected : list WebSocket) : M unit :=
  match disconnected with
  | [] => mret tt
  | conn :: rest => disconnect conn;; disconnect_all rest
  end.

(** The [for] statement of the first loop asks the iterator for the
    element at its position in the list [self.active_connections] as the
    list is now. With an element the task suspends in the send to it; past
    the end of the list the loop is over, the second loop unregisters the
    connections whose send failed and the task returns. *)
Definition broadcast_next (message : string) (next : nat)
    (disconnected : list WebSocket) : M broadcast_task :=
  s ← get;
  match active_connections (manager s) !! next with
  | Some connection =>
      mret (BSending message (S next) disconnected connection)
  | None => disconnect_all disconnected;; mret BFinished
  end.

(** The event loop resumes a [broadcast_data] task. A created task
    serializes [data] and starts the first loop. A task suspended in a send
    learns its outcome [send_ok], handles it as the body of the loop does
    and goes on to the next element. A task that has ended stays as it is. *)
Definition broadcast_data (t : broadcast_task) (send_ok : bool)
  : M broadcast_task :=
  match t with
  | BCreated data =>
      s ← get;
      let message := json_dumps (payload_values data s) in
      broadcast_next message 0 []
  | BSending message next disconnected connection =>
      disconnected ←
        try_except
          (send_text send_ok connection message;; mret disconnected)
          (fun e =>
             print (LogWsBroadcastError e);;
             mret (disconnected ++ [connection]));
      broadcast_next message next disconnected
  | BFinished => mret BFinished
  | BFailed e => mret (BFailed e)
  end.

(** ** Session persister *)

(** The name of the file is the closure time to the second. *)
Definition npy_filename (now : datetime) : Z := now `div` usec.

(** [np.save(filepath, data_array)]: the call is recorded with its outcome;
    a failed write raises. *)
Definition np_save (filepath : Z) (data_array : list Z) (io_ok : bool)
  : M unit :=
  modify (fun s =>
            set_np_save_log (np_save_log s ++ [(filepath, data_array, io_ok)]) s);;
  if io_ok then mret tt else raise OSError.

Definition save_buffer_to_npy (now : datetime) (io_ok : bool) : M unit :=
  s ← get;
  match data_stream_buffer s with
  | [] => print LogNpyNoData
  | _ :: _ =>
      try_except
        (data_array ← lift (np_array_int32 (data_stream_buffer s));
         let filepath := npy_filename now in
         np_save filepath data_array io_ok;;
         let avg_val := np_mean data_array in
         min_val ← lift (np_min data_array);
         max_val ← lift (np_max data_array);
         print (LogNpySaved filepath (length (data_stream_buffer s))
                  avg_val min_val max_val))
        (fun e => print (LogNpyError e))
  end.

(** ** Timeout monitor *)

(** One pass of the body of the loop of [check_stream_timeout] after the
    sleep, under the lock; [true] when it leaves through [break]. *)
Definition check_stream_timeout_body (now : datetime) (io_ok : bool)
  : M bool :=
  s ← get;
  match last_data_time s with
  | None => mret false
  | Some t =>
      let elapsed := now - t in
      if STREAM_TIMEOUT_SEC * usec <? elapsed then
        print (LogSessionTimeout elapsed);;
        save_buffer_to_npy now io_ok;;
        modify (rebind_data_stream_buffer []);;
        modify (set_is_receiving false);;
        modify (set_last_data_time None);;
        mret true
      else mret false
  end.

(** [while is_receiving: await asyncio.sleep(1.0)]: the task suspends in
    the sleep, or returns. *)
Definition loop_head (s : Server) : task_state :=
  if is_receiving s then Sleeping else Finished.

Definition set_task (tid : nat) (t : task_state) (s : Server) : Server :=
  set_tasks (<[tid := t]> (tasks s)) s.

(** The event loop resumes task [tid] at time [now]: a created task runs
    to its first sleep, a sleeping task runs one pass of the loop and on to
    the next sleep. A task that has ended is not resumed. *)
Definition check_stream_timeout (tid : nat) (now : datetime) (io_ok : bool)
    (s : Server) : Server :=
  match tasks s !! tid with
  | Some Created => set_task tid (loop_head s) s
  | Some Sleeping =>
      match check_stream_timeout_body now io_ok s with
      | (Ok true, s') => set_task tid Finished s'
      | (Ok false, s') => set_task tid (loop_head s') s'
      | (Raise e, s') => set_task tid (Failed e) s'
      end
  | _ => s
  end.

(** ** Ingestion *)

Record response := { status : string; received_count : nat }.

(** [asyncio.create_task(check_stream_timeout())] *)
Definition create_task : M nat :=
  s ← get;
  modify (set_tasks (tasks s ++ [Created]));;
  mret (length (tasks s)).

(** [receive_co2_raw_data] from the extracted [raw_z_values_list] on. *)
Definition receive_co2_raw_data (raw_z_values_list : list Z) (now : datetime)
  : M response :=
  match raw_z_values_list with
  | [] => raise (HTTPException 400 "No valid data")
  | _ :: _ =>
      s0 ← get;
      (if negb (is_receiving s0) then
         print LogSessionStarted;;
         modify (set_is_receiving true);;
         modify (rebind_data_stream_buffer raw_z_values_list);;
         modify (set_total_batches_received 0);;
         modify (set_total_points_received 0);;
         t ← create_task;
         modify (set_timeout_task (Some t))
       else
         modify (set_data_stream_buffer
                   (data_stream_buffer s0 ++ raw_z_values_list)));;
      modify (set_last_data_time (Some now));;
      modify (fun s =>
                set_total_batches_received (total_batches_received s + 1) s);;
      modify (fun s =>
                set_total_points_received
                  (total_points_received s
                   + Z.of_nat (length raw_z_values_list)) s);;
      s ← get;
      match active_connections (manager s) with
      | [] => mret tt
      | _ :: _ =>
          modify (set_broadcast_tasks
                    (broadcast_tasks s
                     ++ [BCreated (if is_receiving s0
                                   then OwnList raw_z_values_list
                                   else BufferObject)]))
      end;;
      s ← get;
      (if total_batches_received s `mod` 10 =? 0 then
         print (LogData (total_batches_received s) (total_points_received s)
                  (np_mean (data_stream_buffer s)))
       else mret tt);;
      mret {| status := "success";
              received_count := length raw_z_values_list |}
  end.

(** ** Stats reporter *)

Inductive session_status := Active | Ended.

Record stats := {
  stats_status : session_status;
  total_points : nat;
  total_batches : Z;
  average : Q;
  stats_min : Z;
  stats_max : Z;
  std_squared : Q;
  last_update : option datetime
}.

Inductive stats_response :=
  | NoData
  | Stats (r : stats).

Definition get_stats (s : Server) : result stats_response :=
  match data_stream_buffer s with
  | [] => Ok NoData
  | _ :: _ =>
      match np_array_int32 (data_stream_buffer s) with
      | Raise e => Raise e
      | Ok data_array =>
          match np_min data_array, np_max data_array with
          | Ok lo, Ok hi =>
              Ok (Stats {|
                stats_status := if is_receiving s then Active else Ended;
                total_points := length (data_stream_buffer s);
                total_batches := total_batches_received s;
                average := np_mean data_array;
                stats_min := lo;
                stats_max := hi;
                std_squared := np_var data_array;
                last_update := last_data_time s |})
          | Raise e, _ => Raise e
          | _, Raise e => Raise e
          end
      end
  end.

(** ** The event loop *)

(** What the event loop can run next: a request to [/co2_data] with its
    extracted values, the resumption of a timeout task, a websocket
    connecting or disconnecting, and the resumption of a broadcast task
    with the outcome of the send it was suspended in. *)
Inductive event :=
  | EvPost (raw_z_values_list : list Z) (now : datetime)
  | EvTimer (tid : nat) (now : datetime) (io_ok : bool)
  | EvConnect (websocket : WebSocket)
  | EvDisconnect (websocket : WebSocket)
  | EvBroadcast (bid : nat) (send_ok : bool).

Definition set_broadcast_task (bid : nat) (t : broadcast_task) (s : Server)
  : Server :=
  set_broadcast_tasks (<[bid := t]> (broadcast_tasks s)) s.

Definition step (ev : event) (s : Server) : Server :=
  match ev with
  | EvPost raw now => (receive_co2_raw_data raw now s).2
  | EvTimer tid now io_ok => check_stream_timeout tid now io_ok s
  | EvConnect ws => (connect ws s).2
  | EvDisconnect ws => (disconnect ws s).2
  | EvBroadcast bid send_ok =>
      match broadcast_tasks s !! bid with
      | Some t =>
          match broadcast_data t send_ok s with
          | (Ok t', s') => set_broadcast_task bid t' s'
          | (Raise e, s') => set_broadcast_task bid (BFailed e) s'
          end
      | None => s
      end
  end.

Definition run (evs : list event) (s : Server) : Server :=
  foldl (fun s ev => step ev s) s evs.

Inductive reachable : Server -> Prop :=
  | reachable_initial : reachable initial
  | reachable_step ev s : reachable s -> reachable (step ev s).

(** * Properties *)

(** ** Running the statements *)

Create HintDb mrun.
#[global] Hint Unfold mbind mret M_bind M_ret bind ret raise try_except get
  modify lift print create_task : mrun.

Ltac mrun := repeat progress (autounfold with mrun in *; cbn in *).

(** Running a request without expanding the assignments. *)
Ltac mstep :=
  cbv beta iota delta [mbind mret M_bind M_ret bind ret raise try_except get
                        modify lift print create_task negb fst snd].

(** The same, keeping the projections of pairs folded. *)
Ltac mstep0 :=
  cbv beta iota delta [mbind mret M_bind M_ret bind ret raise try_except get
                        modify lift print create_task].

Ltac proj :=
  cbn [data_stream_buffer last_data_time is_receiving timeout_task
       total_batches_received total_points_received manager tasks
       broadcast_tasks np_save_log ws_sent stdout active_connections
       set_data_stream_buffer set_last_data_time set_is_receiving
       set_timeout_task set_total_batches_received set_total_points_received
       set_active_connections set_tasks set_broadcast_tasks set_np_save_log
       set_ws_sent set_stdout rebind_data_stream_buffer].

Ltac receive_cases s :=
  unfold receive_co2_raw_data; mstep;
  destruct (is_receiving s) eqn:Hrecv; mstep;
  match goal with
  | |- context [active_connections (manager ?t)] =>
      change (manager t) with (manager s)
  end;
  destruct (active_connections (manager s)) eqn:?; mstep;
  match goal with
  | |- context [if ?c then _ else _] => destruct c
  end; mstep.

Lemma receive_co2_raw_data_accepts (raw : list Z) (now : datetime) (s : Server) :
  raw <> [] ->
  exists s',
    receive_co2_raw_data raw now s
    = (Ok {| status := "success"; received_count := length raw |}, s')
    /\ is_receiving s' = true
    /\ data_stream_buffer s'
       = (if is_receiving s then data_stream_buffer s ++ raw else raw)
    /\ last_data_time s' = Some now
    /\ total_batches_received s'
       = (if is_receiving s then total_batches_received s else 0) + 1
    /\ total_points_received s'
       = (if is_receiving s then total_points_received s else 0)
         + Z.of_nat (length raw)
    /\ tasks s' = (if is_receiving s then tasks s else tasks s ++ [Created])
    /\ np_save_log s' = np_save_log s
    /\ manager s' = manager s.
Proof.
  intros Hraw. destruct raw as [|x raw]; [done|].
  receive_cases s;
    (eexists; split; [reflexivity|]; proj; rewrite ?Hrecv; split_and!;
     reflexivity).
Qed.

Lemma receive_co2_raw_data_rejects (now : datetime) (s : Server) :
  receive_co2_raw_data [] now s
  = (Raise (HTTPException 400 "No valid data"), s).
Proof. reflexivity. Qed.

(** What [save_buffer_to_npy] hands to [np.save], and the line it prints. *)
Definition saved_entry (now : datetime) (io_ok : bool) (buffer : list Z)
  : list (Z * list Z * bool) :=
  match buffer with
  | [] => []
  | _ :: _ =>
      if forallb is_int32 buffer then [(npy_filename now, buffer, io_ok)]
      else []
  end.

Definition saved_line (now : datetime) (io_ok : bool) (buffer : list Z)
  : log_line :=
  match buffer with
  | [] => LogNpyNoData
  | x :: r =>
      if forallb is_int32 buffer then
        if io_ok then
          LogNpySaved (npy_filename now) (length buffer) (np_mean buffer)
            (foldl Z.min x r) (foldl Z.max x r)
        else LogNpyError OSError
      else LogNpyError OverflowError
  end.

Lemma save_buffer_to_npy_spec (now : datetime) (io_ok : bool) (s : Server) :
  save_buffer_to_npy now io_ok s
  = (Ok tt,
     set_stdout (stdout s ++ [saved_line now io_ok (data_stream_buffer s)])
       (set_np_save_log
          (np_save_log s ++ saved_entry now io_ok (data_stream_buffer s)) s)).
Proof.
  destruct s as [b l r t n p c ts bt lg w o].
  unfold save_buffer_to_npy, saved_entry, saved_line, np_array_int32, np_save.
  destruct b as [|x b]; mrun.
  - by rewrite app_nil_r.
  - destruct (is_int32 x && forallb is_int32 b); mrun.
    + destruct io_ok; mrun; reflexivity.
    + by rewrite app_nil_r.
Qed.

(** The state a session is left in when the monitor closes it at [now]. *)
Definition closed (now : datetime) (io_ok : bool) (t : datetime) (s : Server)
  : Server :=
  set_last_data_time None
    (set_is_receiving false
       (rebind_data_stream_buffer []
          (set_stdout
             (stdout s ++ [LogSessionTimeout (now - t);
                           saved_line now io_ok (data_stream_buffer s)])
             (set_np_save_log
                (np_save_log s
                 ++ saved_entry now io_ok (data_stream_buffer s)) s)))).

Lemma check_stream_timeout_body_idle (now : datetime) (io_ok : bool)
    (s : Server) :
  last_data_time s = None ->
  check_stream_timeout_body now io_ok s = (Ok false, s).
Proof. intros H. unfold check_stream_timeout_body. mrun. by rewrite H. Qed.

Lemma check_stream_timeout_body_early (now t : datetime) (io_ok : bool)
    (s : Server) :
  last_data_time s = Some t ->
  now - t <= STREAM_TIMEOUT_SEC * usec ->
  check_stream_timeout_body now io_ok s = (Ok false, s).
Proof.
  intros H Hle. unfold check_stream_timeout_body. mrun. rewrite H.
  destruct (Z.ltb_spec (STREAM_TIMEOUT_SEC * usec) (now - t)); [lia|done].
Qed.

Lemma check_stream_timeout_body_late (now t : datetime) (io_ok : bool)
    (s : Server) :
  last_data_time s = Some t ->
  STREAM_TIMEOUT_SEC * usec < now - t ->
  check_stream_timeout_body now io_ok s = (Ok true, closed now io_ok t s).
Proof.
  intros H Hlt. unfold check_stream_timeout_body. mrun. rewrite H.
  destruct (Z.ltb_spec (STREAM_TIMEOUT_SEC * usec) (now - t)); [|lia].
  pose proof (save_buffer_to_npy_spec now io_ok
                (set_stdout (stdout s ++ [LogSessionTimeout (now - t)]) s))
    as Hsave.
  mrun. rewrite Hsave. unfold closed.
  destruct s as [b l r tt' n p c ts bt lg w o]; cbn.
  by rewrite <- app_assoc.
Qed.

(** The body of the loop never raises. *)
Lemma check_stream_timeout_body_total (now : datetime) (io_ok : bool)
    (s : Server) :
  exists brk s', check_stream_timeout_body now io_ok s = (Ok brk, s').
Proof.
  destruct (last_data_time s) as [t|] eqn:Hl.
  - destruct (Z.le_gt_cases (now - t) (STREAM_TIMEOUT_SEC * usec)).
    + eexists _, _. by eapply check_stream_timeout_body_early.
    + eexists _, _. eapply check_stream_timeout_body_late; [done|lia].
  - eexists _, _. by apply check_stream_timeout_body_idle.
Qed.

(** ** Resuming a timeout task *)

Lemma tasks_closed (now t : datetime) (io_ok : bool) (s : Server) :
  tasks (closed now io_ok t s) = tasks s.
Proof. reflexivity. Qed.

Lemma check_stream_timeout_created (tid : nat) (now : datetime) (io_ok : bool)
    (s : Server) :
  tasks s !! tid = Some Created ->
  check_stream_timeout tid now io_ok s = set_task tid (loop_head s) s.
Proof. intros H. unfold check_stream_timeout. by rewrite H. Qed.

Lemma check_stream_timeout_ended (tid : nat) (now : datetime) (io_ok : bool)
    (s : Server) :
  tasks s !! tid <> Some Created ->
  tasks s !! tid <> Some Sleeping ->
  check_stream_timeout tid now io_ok s = s.
Proof.
  intros H1 H2. unfold check_stream_timeout.
  destruct (tasks s !! tid) as [[]|]; done.
Qed.

Lemma check_stream_timeout_quiet (tid : nat) (now : datetime) (io_ok : bool)
    (s : Server) :
  tasks s !! tid = Some Sleeping ->
  (forall t, last_data_time s = Some t -> now - t <= STREAM_TIMEOUT_SEC * usec) ->
  check_stream_timeout tid now io_ok s = set_task tid (loop_head s) s.
Proof.
  intros H Hq. unfold check_stream_timeout. rewrite H.
  destruct (last_data_time s) as [t|] eqn:Hl.
  - by rewrite (check_stream_timeout_body_early now t); [|done|apply Hq].
  - by rewrite check_stream_timeout_body_idle.
Qed.

Lemma check_stream_timeout_fires (tid : nat) (now t : datetime) (io_ok : bool)
    (s : Server) :
  tasks s !! tid = Some Sleeping ->
  last_data_time s = Some t ->
  STREAM_TIMEOUT_SEC * usec < now - t ->
  check_stream_timeout tid now io_ok s
  = set_task tid Finished (closed now io_ok t s).
Proof.
  intros H Hl Hlt. unfold check_stream_timeout. rewrite H.
  by rewrite (check_stream_timeout_body_late now t).
Qed.

(** A task that is resumed while the session is receiving and within the
    threshold goes back to sleep: nothing changes. *)
Lemma set_task_same (tid : nat) (t : task_state) (s : Server) :
  tasks s !! tid = Some t -> set_task tid t s = s.
Proof.
  intros H. unfold set_task. rewrite list_insert_id; [|done].
  by destruct s.
Qed.

(** ** The observers do not touch the session *)

Definition is_started (l : log_line) : bool :=
  match l with LogSessionStarted => true | _ => false end.

Definition is_timeout (l : log_line) : bool :=
  match l with LogSessionTimeout _ => true | _ => false end.

(** The sessions opened and closed so far, as the log tells. *)
Definition sessions_started (s : Server) : nat :=
  length (List.filter is_started (stdout s)).

Definition sessions_closed (s : Server) : nat :=
  length (List.filter is_timeout (stdout s)).

Record same_session (s s' : Server) : Prop := {
  same_buffer : data_stream_buffer s' = data_stream_buffer s;
  same_time : last_data_time s' = last_data_time s;
  same_receiving : is_receiving s' = is_receiving s;
  same_timeout_task : timeout_task s' = timeout_task s;
  same_batches : total_batches_received s' = total_batches_received s;
  same_points : total_points_received s' = total_points_received s;
  same_tasks : tasks s' = tasks s;
  same_saves : np_save_log s' = np_save_log s;
  same_started : sessions_started s' = sessions_started s;
  same_closed : sessions_closed s' = sessions_closed s
}.

Lemma same_session_refl (s : Server) : same_session s s.
Proof. by split. Qed.

Lemma same_session_trans (s1 s2 s3 : Server) :
  same_session s1 s2 -> same_session s2 s3 -> same_session s1 s3.
Proof. intros [] []. split; congruence. Qed.

Lemma same_session_print (l : log_line) (s : Server) :
  is_started l = false -> is_timeout l = false ->
  same_session s (set_stdout (stdout s ++ [l]) s).
Proof.
  intros H1 H2. split; try reflexivity.
  - unfold sessions_started. cbn. rewrite List.filter_app. cbn. rewrite H1.
    by rewrite app_nil_r.
  - unfold sessions_closed. cbn. rewrite List.filter_app. cbn. rewrite H2.
    by rewrite app_nil_r.
Qed.

Lemma same_session_connections (v : list WebSocket) (s : Server) :
  same_session s (set_active_connections v s).
Proof. by split. Qed.

Lemma same_session_ws_sent (v : list (WebSocket * string)) (s : Server) :
  same_session s (set_ws_sent v s).
Proof. by split. Qed.

Lemma same_session_broadcast_tasks (v : list broadcast_task) (s : Server) :
  same_session s (set_broadcast_tasks v s).
Proof. by split. Qed.

Create HintDb session.
#[global] Hint Resolve same_session_refl same_session_print
  same_session_connections same_session_ws_sent
  same_session_broadcast_tasks : session.

Lemma list_remove_notin (x : WebSocket) (l : list WebSocket) :
  x ∉ l -> list_remove x l = l.
Proof.
  induction l as [|y l IH]; [done|]. intros Hx. cbn.
  destruct (decide (x = y)) as [->|]; [by destruct Hx; left|].
  f_equal. apply IH. intros ?. apply Hx. by right.
Qed.

Ltac same_session_tac :=
  split; try reflexivity;
  unfold sessions_started, sessions_closed; cbn;
  rewrite ?List.filter_app; cbn; rewrite ?app_nil_r; reflexivity.

Lemma connect_spec (ws : WebSocket) (s : Server) :
  exists s', connect ws s = (Ok tt, s')
    /\ active_connections (manager s') = active_connections (manager s) ++ [ws]
    /\ ws_sent s' = ws_sent s
    /\ same_session s s'.
Proof.
  unfold connect. mrun. eexists; split; [done|].
  split_and!; try done. same_session_tac.
Qed.

Lemma disconnect_spec (ws : WebSocket) (s : Server) :
  exists s', disconnect ws s = (Ok tt, s')
    /\ active_connections (manager s')
       = list_remove ws (active_connections (manager s))
    /\ ws_sent s' = ws_sent s
    /\ same_session s s'.
Proof.
  unfold disconnect. mrun.
  destruct (decide (ws ∈ active_connections (manager s))) as [Hin|Hnin]; mrun.
  - eexists; split; [done|]. split_and!; try done. same_session_tac.
  - eexists; split; [done|]. rewrite list_remove_notin; [|done].
    split_and!; auto with session.
Qed.

Lemma disconnect_all_spec (disconnected : list WebSocket) (s : Server) :
  exists s',
    disconnect_all disconnected s = (Ok tt, s')
    /\ active_connections (manager s')
       = foldl (fun l c => list_remove c l)
           (active_connections (manager s)) disconnected
    /\ ws_sent s' = ws_sent s
    /\ same_session s s'.
Proof.
  revert s. induction disconnected as [|c rest IH]; intros s.
  - eexists; split; [done|]. split_and!; auto with session.
  - cbn [disconnect_all].
    destruct (disconnect_spec c s) as (s1 & E1 & Hact1 & Hsent1 & Hsame1).
    destruct (IH s1) as (s2 & E2 & Hact2 & Hsent2 & Hsame2).
    exists s2. mrun. rewrite E1, E2. split; [done|].
    rewrite Hact2, Hact1, Hsent2, Hsent1. split_and!; [done|done|].
    by eapply same_session_trans.
Qed.

(** Removing the first occurrence of an element that is not at the head
    leaves the head in place. *)
Lemma remove_all_cons_notin (c : WebSocket) (ds l : list WebSocket) :
  c ∉ ds ->
  foldl (fun l c => list_remove c l) (c :: l) ds
  = c :: foldl (fun l c => list_remove c l) l ds.
Proof.
  revert l. induction ds as [|d ds IH]; intros l Hc; [done|].
  cbn. destruct (decide (d = c)) as [->|Hne].
  - destruct Hc. by left.
  - apply IH. intros ?. apply Hc. by right.
Qed.

(** Dropping every connection whose send failed leaves those whose send
    succeeded, in their order. *)
Lemma remove_failed (channel_open : WebSocket -> bool)
    (connections : list WebSocket) :
  foldl (fun l c => list_remove c l) connections
    (filter (fun c => channel_open c = false) connections)
  = filter (fun c => channel_open c = true) connections.
Proof.
  induction connections as [|c rest IH]; [done|].
  rewrite !filter_cons. destruct (channel_open c) eqn:Hc.
  - rewrite decide_False by done. rewrite decide_True by done.
    rewrite remove_all_cons_notin; [by rewrite IH|].
    intros Hin. apply list_elem_of_filter in Hin as [Hbad _]. congruence.
  - rewrite decide_True by done. rewrite decide_False by done.
    cbn. rewrite decide_True by done. exact IH.
Qed.

(** The server after the send a task was suspended in: the message is
    with the observer, or the failure is logged. *)
Definition after_send (send_ok : bool) (connection : WebSocket)
    (message : string) (s : Server) : Server :=
  if send_ok then set_ws_sent (ws_sent s ++ [(connection, message)]) s
  else set_stdout (stdout s ++ [LogWsBroadcastError WebSocketError]) s.

Lemma same_session_after_send (send_ok : bool) (connection : WebSocket)
    (message : string) (s : Server) :
  same_session s (after_send send_ok connection message s).
Proof. destruct send_ok; cbn; auto with session. Qed.

Lemma broadcast_next_spec (message : string) (next : nat)
    (disconnected : list WebSocket) (s : Server) :
  exists t s',
    broadcast_next message next disconnected s = (Ok t, s')
    /\ ws_sent s' = ws_sent s
    /\ same_session s s'
    /\ match active_connections (manager s) !! next with
       | Some connection =>
           t = BSending message (S next) disconnected connection /\ s' = s
       | None =>
           t = BFinished
           /\ active_connections (manager s')
              = foldl (fun l c => list_remove c l)
                  (active_connections (manager s)) disconnected
       end.
Proof.
  unfold broadcast_next. mstep0.
  destruct (active_connections (manager s) !! next) as [c|].
  - eexists _, _. split; [done|]. split_and!; auto with session.
  - destruct (disconnect_all_spec disconnected s)
      as (s1 & E & Hact & Hsent & Hsame).
    rewrite E. eexists _, _. split; [done|]. by split_and!.
Qed.

Lemma broadcast_data_sending (message : string) (next : nat)
    (disconnected : list WebSocket) (connection : WebSocket)
    (send_ok : bool) (s : Server) :
  broadcast_data (BSending message next disconnected connection) send_ok s
  = broadcast_next message next
      (if send_ok then disconnected else disconnected ++ [connection])
      (after_send send_ok connection message s).
Proof. unfold broadcast_data, send_text. by destruct send_ok. Qed.

(** One resumption of a broadcast task never raises and leaves the
    session alone. *)
Lemma broadcast_data_spec (t : broadcast_task) (send_ok : bool) (s : Server) :
  exists t' s',
    broadcast_data t send_ok s = (Ok t', s') /\ same_session s s'.
Proof.
  destruct t as [data|message next disconnected connection| |e].
  - unfold broadcast_data. mstep0.
    destruct (broadcast_next_spec (json_dumps (payload_values data s)) 0 [] s)
      as (t' & s' & E & _ & Hsame & _).
    by exists t', s'.
  - rewrite broadcast_data_sending.
    destruct (broadcast_next_spec message next
                (if send_ok then disconnected else disconnected ++ [connection])
                (after_send send_ok connection message s))
      as (t' & s' & E & _ & Hsame & _).
    exists t', s'. split; [done|].
    eapply same_session_trans; [apply same_session_after_send|done].
  - eexists _, _. split; [done|]. auto with session.
  - eexists _, _. split; [done|]. auto with session.
Qed.

Lemma step_observer (ev : event) (s : Server) :
  match ev with EvPost _ _ | EvTimer _ _ _ => False | _ => True end ->
  same_session s (step ev s).
Proof.
  destruct ev as [raw now|tid now io_ok|ws|ws|bid send_ok]; try done;
    intros _; cbn [step].
  - by destruct (connect_spec ws s) as (s' & -> & _ & _ & H).
  - by destruct (disconnect_spec ws s) as (s' & -> & _ & _ & H).
  - destruct (broadcast_tasks s !! bid) as [t|]; [|auto with session].
    destruct (broadcast_data_spec t send_ok s) as (t' & s' & -> & H).
    eapply same_session_trans; [exact H|]. unfold set_broadcast_task.
    auto with session.
Qed.

(** The three ways the resumption of a timeout task can go. *)
Lemma check_stream_timeout_cases (tid : nat) (now : datetime) (io_ok : bool)
    (s : Server) :
  check_stream_timeout tid now io_ok s = s
  \/ (exists t0, (t0 = Created \/ t0 = Sleeping)
        /\ tasks s !! tid = Some t0
        /\ check_stream_timeout tid now io_ok s
           = set_task tid (loop_head s) s)
  \/ (exists t, tasks s !! tid = Some Sleeping
        /\ last_data_time s = Some t
        /\ STREAM_TIMEOUT_SEC * usec < now - t
        /\ check_stream_timeout tid now io_ok s
           = set_task tid Finished (closed now io_ok t s)).
Proof.
  destruct (tasks s !! tid) as [[| | |e]|] eqn:Ht.
  - right; left. exists Created. split_and!; auto.
    by apply check_stream_timeout_created.
  - destruct (last_data_time s) as [t|] eqn:Hl.
    + destruct (Z.le_gt_cases (now - t) (STREAM_TIMEOUT_SEC * usec)) as [Hle|Hgt].
      * right; left. exists Sleeping. split_and!; auto.
        apply check_stream_timeout_quiet; [done|]. intros t' Ht'.
        by simplify_eq.
      * right; right. exists t. split_and!; auto; try lia.
        apply check_stream_timeout_fires; [done|done|lia].
    + right; left. exists Sleeping. split_and!; auto.
      apply check_stream_timeout_quiet; [done|]. intros t' Ht'. congruence.
  - left. apply check_stream_timeout_ended; congruence.
  - left. apply check_stream_timeout_ended; congruence.
  - left. apply check_stream_timeout_ended; congruence.
Qed.

(** ** The session invariant *)

Definition session_inv (s : Server) : Prop :=
  (is_receiving s = true -> data_stream_buffer s <> [])
  /\ (is_Some (last_data_time s) <-> is_receiving s = true).

Lemma session_inv_initial : session_inv initial.
Proof.
  split; [done|]. split; [intros [? ?]; done|done].
Qed.

Lemma session_inv_same (s s' : Server) :
  same_session s s' -> session_inv s -> session_inv s'.
Proof.
  intros Hs [H1 H2]. unfold session_inv.
  by rewrite (same_buffer _ _ Hs), (same_time _ _ Hs), (same_receiving _ _ Hs).
Qed.

Lemma session_inv_closed (now t : datetime) (io_ok : bool) (tid : nat)
    (s : Server) :
  session_inv (set_task tid Finished (closed now io_ok t s)).
Proof.
  split; cbn; [done|]. split; [intros [? ?]; done|done].
Qed.

Lemma session_inv_step (ev : event) (s : Server) :
  session_inv s -> session_inv (step ev s).
Proof.
  intros Hinv.
  destruct ev as [raw now|tid now io_ok|ws|ws|bid send_ok];
    try (eapply session_inv_same; [by apply step_observer|done]).
  - cbn. destruct raw as [|x raw]; [done|].
    destruct (receive_co2_raw_data_accepts (x :: raw) now s ltac:(done))
      as (s' & -> & Hr & Hb & Hl & _).
    split; cbn [snd].
    + intros _. rewrite Hb. destruct (is_receiving s); [|done].
      intros Happ. by apply app_eq_nil in Happ as [_ ?].
    + rewrite Hl, Hr. split; [done|by eexists].
  - cbn.
    destruct (check_stream_timeout_cases tid now io_ok s)
      as [->|[(t0 & _ & _ & ->)|(t & _ & _ & _ & ->)]];
      [done|exact Hinv|apply session_inv_closed].
Qed.

(** ** The timeout tasks *)

(** A task that can still run: created, or suspended in its sleep. *)
Definition live (t : task_state) : bool :=
  match t with Created | Sleeping => true | _ => false end.

(** The number of timeout monitors that are armed. *)
Definition armed (s : Server) : nat := length (List.filter live (tasks s)).

Lemma filter_live_insert_same (l : list task_state) (i : nat)
    (t0 t : task_state) :
  l !! i = Some t0 -> live t = live t0 ->
  length (List.filter live (<[i:=t]> l)) = length (List.filter live l).
Proof.
  revert i. induction l as [|x l IH]; intros [|i] Hi Hlive; try done.
  - cbn in *. simplify_eq. rewrite Hlive. by destruct (live t0).
  - cbn in *. destruct (live x); cbn; [f_equal|]; by apply IH.
Qed.

Lemma filter_live_insert_finish (l : list task_state) (i : nat)
    (t0 t : task_state) :
  l !! i = Some t0 -> live t0 = true -> live t = false ->
  S (length (List.filter live (<[i:=t]> l))) = length (List.filter live l).
Proof.
  revert i. induction l as [|x l IH]; intros [|i] Hi H0 Ht; try done.
  - cbn in *. simplify_eq. by rewrite H0, Ht.
  - cbn in *. destruct (live x); cbn; [f_equal|]; by apply IH.
Qed.

Lemma filter_live_lookup (l : list task_state) (i : nat) (t0 : task_state) :
  l !! i = Some t0 -> live t0 = true ->
  (0 < length (List.filter live l))%nat.
Proof.
  revert i. induction l as [|x l IH]; intros [|i] Hi H0; try done.
  - cbn in *. simplify_eq. rewrite H0. cbn. lia.
  - cbn in *. destruct (live x); cbn; [lia|by eapply IH].
Qed.

Lemma receive_co2_raw_data_log (raw : list Z) (now : datetime) (s : Server) :
  raw <> [] ->
  sessions_started (receive_co2_raw_data raw now s).2
  = (sessions_started s + if is_receiving s then 0 else 1)%nat
  /\ sessions_closed (receive_co2_raw_data raw now s).2 = sessions_closed s
  /\ timeout_task (receive_co2_raw_data raw now s).2
     = (if is_receiving s then timeout_task s else Some (length (tasks s))).
Proof.
  intros Hraw. destruct raw as [|x raw]; [done|].
  unfold sessions_started, sessions_closed.
  receive_cases s;
    (proj; rewrite ?Hrecv; split_and!; [| |reflexivity];
     rewrite ?List.filter_app, ?length_app; cbn; lia).
Qed.

Lemma closed_log (now t : datetime) (io_ok : bool) (s : Server) :
  sessions_started (closed now io_ok t s) = sessions_started s
  /\ sessions_closed (closed now io_ok t s) = S (sessions_closed s)
  /\ (length (np_save_log (closed now io_ok t s))
      <= S (length (np_save_log s)))%nat.
Proof.
  unfold sessions_started, sessions_closed, closed. cbn.
  rewrite !List.filter_app, !length_app. cbn.
  assert (is_started (saved_line now io_ok (data_stream_buffer s)) = false
          /\ is_timeout (saved_line now io_ok (data_stream_buffer s)) = false)
    as [-> ->].
  { unfold saved_line. destruct (data_stream_buffer s); [done|].
    destruct (forallb _ _); [|done]. by destruct io_ok. }
  cbn. split_and!; [lia|lia|].
  unfold saved_entry. destruct (data_stream_buffer s); cbn; [lia|].
  destruct (_ && _); cbn; lia.
Qed.

(** What holds of the monitors and of the ledger of sessions in every
    state the server can reach. *)
Record monitor_inv (s : Server) : Prop := {
  inv_armed : armed s = if is_receiving s then 1%nat else 0%nat;
  inv_idle_empty : is_receiving s = false -> data_stream_buffer s = [];
  inv_started :
    sessions_started s
    = (sessions_closed s + if is_receiving s then 1 else 0)%nat;
  inv_saved : (length (np_save_log s) <= sessions_closed s)%nat;
  inv_not_failed : forall tid e, tasks s !! tid <> Some (Failed e)
}.

Lemma monitor_inv_initial : monitor_inv initial.
Proof. by split. Qed.

Lemma monitor_inv_same (s s' : Server) :
  same_session s s' -> monitor_inv s -> monitor_inv s'.
Proof.
  intros Hs [H1 H2 H3 H4 H5]. unfold armed in *.
  split; unfold armed;
    rewrite ?(same_tasks _ _ Hs), ?(same_receiving _ _ Hs),
      ?(same_buffer _ _ Hs), ?(same_started _ _ Hs), ?(same_closed _ _ Hs),
      ?(same_saves _ _ Hs); done.
Qed.

Lemma live_task_receiving (tid : nat) (t0 : task_state) (s : Server) :
  monitor_inv s -> tasks s !! tid = Some t0 -> live t0 = true ->
  is_receiving s = true.
Proof.
  intros Hinv Ht Hlive.
  pose proof (filter_live_lookup _ _ _ Ht Hlive) as Hpos.
  pose proof (inv_armed _ Hinv) as Harmed. unfold armed in Harmed.
  destruct (is_receiving s); [done|lia].
Qed.

Lemma not_failed_insert (l : list task_state) (tid : nat) (t : task_state) :
  (forall e, t <> Failed e) ->
  (forall i e, l !! i <> Some (Failed e)) ->
  forall i e, <[tid:=t]> l !! i <> Some (Failed e).
Proof.
  intros Ht Hl i e Hi.
  apply list_lookup_insert_Some in Hi as [(_ & Heq & _)|(_ & Hi)].
  - by eapply Ht.
  - by eapply Hl.
Qed.

Lemma monitor_inv_step (ev : event) (s : Server) :
  monitor_inv s -> monitor_inv (step ev s).
Proof.
  intros Hinv.
  destruct ev as [raw now|tid now io_ok|ws|ws|bid send_ok];
    try (eapply monitor_inv_same; [by apply step_observer|done]).
  - destruct raw as [|x raw]; [done|].
    destruct (receive_co2_raw_data_log (x :: raw) now s ltac:(done))
      as (Hst & Hcl & _).
    destruct (receive_co2_raw_data_accepts (x :: raw) now s ltac:(done))
      as (s' & E & Hr & Hb & Hl & _ & _ & Hts & Hlog & _).
    cbn [step]. rewrite E in *. cbn [snd] in *.
    destruct Hinv as [H1 H2 H3 H4 H5]. unfold armed in H1.
    split; unfold armed; rewrite ?Hr, ?Hts, ?Hst, ?Hcl, ?Hlog.
    + destruct (is_receiving s); [done|].
      rewrite List.filter_app, length_app, H1. done.
    + done.
    + rewrite H3. destruct (is_receiving s); lia.
    + done.
    + intros tid e. destruct (is_receiving s); [apply H5|].
      intros [Hin|[_ Hin]]%lookup_app_Some; [by eapply H5|].
      by destruct (tid - length (tasks s))%nat.
  - cbn [step].
    destruct (check_stream_timeout_cases tid now io_ok s)
      as [->|[(t0 & Hlive & Ht & ->)|(t & Ht & Hl & Hlt & ->)]]; [done| |].
    + assert (live t0 = true) as Hl0 by (by destruct Hlive as [-> | ->]).
      pose proof (live_task_receiving _ _ _ Hinv Ht Hl0) as Hr.
      unfold loop_head. rewrite Hr.
      destruct Hinv as [H1 H2 H3 H4 H5]. unfold armed in H1.
      split; unfold armed; try done.
      * cbn. by rewrite (filter_live_insert_same _ _ t0).
      * cbn. by apply not_failed_insert.
    + pose proof (live_task_receiving _ _ _ Hinv Ht eq_refl) as Hr.
      destruct (closed_log now t io_ok s) as (Hst & Hcl & Hsv).
      destruct Hinv as [H1 H2 H3 H4 H5]. unfold armed in H1.
      rewrite Hr in *.
      split; unfold armed; try done.
      * cbn.
        pose proof (filter_live_insert_finish _ _ Sleeping Finished Ht
                      eq_refl eq_refl). lia.
      * change (sessions_started (closed now io_ok t s)
                = (sessions_closed (closed now io_ok t s) + 0)%nat). lia.
      * change (length (np_save_log (closed now io_ok t s))
                <= sessions_closed (closed now io_ok t s))%nat. lia.
      * cbn. by apply not_failed_insert.
Qed.

Lemma reachable_session_inv (s : Server) : reachable s -> session_inv s.
Proof.
  induction 1; [apply session_inv_initial|by apply session_inv_step].
Qed.

Lemma reachable_monitor_inv (s : Server) : reachable s -> monitor_inv s.
Proof.
  induction 1; [apply monitor_inv_initial|by apply monitor_inv_step].
Qed.

Lemma reachable_run (evs : list event) (s : Server) :
  reachable s -> reachable (run evs s).
Proof.
  revert s. induction evs as [|ev evs IH]; intros s Hs; [done|].
  cbn. apply IH. by constructor.
Qed.

(** ** Accumulation within a session *)

(** The values posted by a trace, in arrival order. *)
Fixpoint batches (evs : list event) : list Z :=
  match evs with
  | [] => []
  | EvPost raw _ :: r => raw ++ batches r
  | _ :: r => batches r
  end.

(** Every batch is non-empty, and every batch and every wake-up of a monitor
    comes no later than the threshold after the batch before it. *)
Fixpoint timely (last : datetime) (evs : list event) : Prop :=
  match evs with
  | [] => True
  | EvPost raw now :: r =>
      raw <> [] /\ now - last <= STREAM_TIMEOUT_SEC * usec /\ timely now r
  | EvTimer _ now _ :: r =>
      now - last <= STREAM_TIMEOUT_SEC * usec /\ timely last r
  | _ :: r => timely last r
  end.

(** The clock of the events does not run backwards. *)
Fixpoint chronological (clock : datetime) (evs : list event) : Prop :=
  match evs with
  | [] => True
  | EvPost _ now :: r => clock <= now /\ chronological now r
  | EvTimer _ now _ :: r => clock <= now /\ chronological now r
  | _ :: r => chronological clock r
  end.

(** Every batch is non-empty and arrives before the threshold has elapsed
    since the batch before it. *)
Fixpoint in_time (last : datetime) (evs : list event) : Prop :=
  match evs with
  | [] => True
  | EvPost raw now :: r =>
      raw <> [] /\ now - last < STREAM_TIMEOUT_SEC * usec /\ in_time now r
  | _ :: r => in_time last r
  end.

Fixpoint has_post (evs : list event) : bool :=
  match evs with
  | [] => false
  | EvPost _ _ :: _ => true
  | _ :: r => has_post r
  end.

(** The trace stops at its last batch: a batch follows every wake-up. *)
Fixpoint up_to_last_batch (evs : list event) : Prop :=
  match evs with
  | [] => True
  | EvTimer _ _ _ :: r => has_post r = true /\ up_to_last_batch r
  | _ :: r => up_to_last_batch r
  end.

Lemma before_next_batch (clock last : datetime) (evs : list event) :
  chronological clock evs -> in_time last evs -> has_post evs = true ->
  clock - last < STREAM_TIMEOUT_SEC * usec.
Proof.
  revert clock. induction evs as [|ev evs IH]; intros clock Hc Hi Hp; [done|].
  destruct ev as [raw now|tid now io_ok|ws|ws|bid send_ok]; cbn in *.
  - lia.
  - destruct Hc as [Hle Hc]. specialize (IH now Hc Hi Hp). lia.
  - by apply IH.
  - by apply IH.
  - by apply IH.
Qed.

Lemma chronological_timely (clock last : datetime) (evs : list event) :
  chronological clock evs -> in_time last evs -> up_to_last_batch evs ->
  timely last evs.
Proof.
  revert clock last.
  induction evs as [|ev evs IH]; intros clock last Hc Hi Hu; [done|].
  destruct ev as [raw now|tid now io_ok|ws|ws|bid send_ok]; cbn in *.
  - destruct Hc as [_ Hc], Hi as (Hraw & Hlt & Hi).
    split_and!; [done|lia|by eapply IH].
  - destruct Hc as [_ Hc], Hu as [Hp Hu]. split; [|by eapply IH].
    pose proof (before_next_batch now last evs Hc Hi Hp). lia.
  - by eapply IH.
  - by eapply IH.
  - by eapply IH.
Qed.

Lemma timely_prefix (last : datetime) (p q : list event) :
  timely last (p ++ q) -> timely last p.
Proof.
  revert last. induction p as [|ev p IH]; intros last H; [done|].
  destruct ev as [raw now|tid now io_ok|ws|ws|bid send_ok]; cbn in *.
  - destruct H as (? & ? & ?). split_and!; [done|done|by apply IH].
  - destruct H as (? & ?). split; [done|by apply IH].
  - by apply IH.
  - by apply IH.
  - by apply IH.
Qed.

Lemma run_timely (evs : list event) (last : datetime) (s : Server) :
  is_receiving s = true -> last_data_time s = Some last -> timely last evs ->
  is_receiving (run evs s) = true
  /\ data_stream_buffer (run evs s) = data_stream_buffer s ++ batches evs.
Proof.
  revert last s.
  induction evs as [|ev evs IH]; intros last s Hr Hl Ht.
  { cbn. by rewrite app_nil_r. }
  assert (forall s', same_session s s' -> timely last evs ->
            is_receiving (run evs s') = true
            /\ data_stream_buffer (run evs s')
               = data_stream_buffer s ++ batches evs) as Hsame.
  { intros s' Hs Ht'. rewrite <- (same_buffer _ _ Hs).
    apply (IH last); [by rewrite (same_receiving _ _ Hs)| |done].
    by rewrite (same_time _ _ Hs). }
  destruct ev as [raw now|tid now io_ok|ws|ws|bid send_ok];
    try (apply Hsame; [by apply step_observer|exact Ht]).
  - cbn in Ht. destruct Ht as (Hraw & _ & Ht). cbn [run foldl step batches].
    destruct (receive_co2_raw_data_accepts raw now s Hraw)
      as (s' & -> & Hr' & Hb' & Hl' & _).
    cbn [snd]. destruct (IH now s' Hr' Hl' Ht) as [IHr IHb].
    change (foldl (fun s ev => step ev s) s' evs) with (run evs s').
    rewrite IHr, IHb, Hb', Hr. by rewrite app_assoc.
  - cbn in Ht. destruct Ht as [Hle Ht]. cbn [run foldl step batches].
    change (foldl (fun s ev => step ev s) ?x evs) with (run evs x).
    destruct (check_stream_timeout_cases tid now io_ok s)
      as [->|[(t0 & _ & _ & ->)|(t & _ & Hl' & Hlt & _)]].
    + by apply (IH last).
    + change (data_stream_buffer s)
        with (data_stream_buffer (set_task tid (loop_head s) s)).
      by apply (IH last).
    + rewrite Hl in Hl'. simplify_eq. lia.
Qed.

(** C1. From Idle, a first non-empty batch followed by any trace in which
    the clock runs forward, every batch is non-empty and arrives before the
    inactivity threshold has elapsed since the batch before it, and which
    stops at its last batch: after every prefix of that trace the session is
    still receiving and the buffer is the first batch followed by all the
    later batches in arrival order. *)
Theorem session_accumulates_batches (s : Server) (b0 : list Z) (t0 : datetime)
    (evs p q : list event) :
  is_receiving s = false ->
  b0 <> [] ->
  chronological t0 evs ->
  in_time t0 evs ->
  up_to_last_batch evs ->
  evs = p ++ q ->
  is_receiving (run (EvPost b0 t0 :: p) s) = true
  /\ data_stream_buffer (run (EvPost b0 t0 :: p) s) = b0 ++ batches p.
Proof.
  intros Hidle Hb0 Hc Hi Hu ->.
  pose proof (chronological_timely _ _ _ Hc Hi Hu) as Ht.
  apply timely_prefix in Ht.
  destruct (receive_co2_raw_data_accepts b0 t0 s Hb0)
    as (s' & E & Hr & Hb & Hl & _).
  rewrite Hidle in Hb.
  change (run (EvPost b0 t0 :: p) s)
    with (run p (receive_co2_raw_data b0 t0 s).2).
  rewrite E. cbn [snd].
  destruct (run_timely p t0 s' Hr Hl Ht) as [-> ->].
  by rewrite Hb.
Qed.

Lemma session_accumulates_batches_witness :
  is_receiving
    (run (EvPost [1; 2; 3] 0
          :: [EvTimer 0 0 true; EvTimer 0 1000000 true;
              EvPost [4; 5] 2000000; EvConnect 7%nat; EvTimer 0 6500000 false;
              EvPost [6] 6900000]) initial) = true
  /\ data_stream_buffer
       (run (EvPost [1; 2; 3] 0
             :: [EvTimer 0 0 true; EvTimer 0 1000000 true;
                 EvPost [4; 5] 2000000; EvConnect 7%nat;
                 EvTimer 0 6500000 false; EvPost [6] 6900000]) initial)
     = [1; 2; 3]
       ++ batches [EvTimer 0 0 true; EvTimer 0 1000000 true;
                   EvPost [4; 5] 2000000; EvConnect 7%nat;
                   EvTimer 0 6500000 false; EvPost [6] 6900000].
Proof.
  apply (session_accumulates_batches initial [1; 2; 3] 0
           [EvTimer 0 0 true; EvTimer 0 1000000 true; EvPost [4; 5] 2000000;
            EvConnect 7%nat; EvTimer 0 6500000 false; EvPost [6] 6900000]
           _ []).
  - reflexivity.
  - discriminate.
  - cbn. lia.
  - cbn. unfold STREAM_TIMEOUT_SEC, usec. repeat split; (discriminate || lia).
  - cbn. repeat split.
  - reflexivity.
Defined.

(** ** Closing a session *)

(** The wake-ups of one timeout task, each with the outcome its write to
    storage would have. *)
Definition wake_ups (tid : nat) (wakes : list (datetime * bool)) : list event :=
  map (fun w => EvTimer tid w.1 w.2) wakes.

(** The first wake-up that finds the threshold exceeded. *)
Fixpoint first_late (t : datetime) (wakes : list (datetime * bool))
  : option (datetime * bool) :=
  match wakes with
  | [] => None
  | w :: r =>
      if STREAM_TIMEOUT_SEC * usec <? w.1 - t then Some w else first_late t r
  end.

(** The wake-ups of a task that went to sleep at [start] and sleeps exactly
    one second each time. *)
Fixpoint polling (start : datetime) (n : nat) : list (datetime * bool) :=
  match n with
  | O => []
  | S k => (start + 1 * usec, true) :: polling (start + 1 * usec) k
  end.

Lemma run_idle_wake_ups (tid : nat) (wakes : list (datetime * bool))
    (s : Server) :
  last_data_time s = None ->
  tasks s !! tid = Some Finished ->
  run (wake_ups tid wakes) s = s.
Proof.
  intros Hl Ht. induction wakes as [|w wakes IH]; [done|].
  cbn. rewrite check_stream_timeout_ended; [exact IH|congruence|congruence].
Qed.

Lemma run_wake_ups_fire (tid : nat) (wakes : list (datetime * bool))
    (t w : datetime) (io_ok : bool) (s : Server) :
  tasks s !! tid = Some Sleeping ->
  is_receiving s = true ->
  last_data_time s = Some t ->
  first_late t wakes = Some (w, io_ok) ->
  run (wake_ups tid wakes) s = set_task tid Finished (closed w io_ok t s).
Proof.
  intros Ht Hr Hl. induction wakes as [|[w' ok'] wakes IH]; [done|].
  cbn. destruct (Z.ltb_spec (STREAM_TIMEOUT_SEC * usec) (w' - t)) as [Hlt|Hle].
  - intros [= -> ->].
    rewrite (check_stream_timeout_fires tid w t); [|done|done|done].
    apply run_idle_wake_ups; [done|].
    cbn. apply list_lookup_insert_eq. by eapply lookup_lt_Some.
  - intros Hf. rewrite check_stream_timeout_quiet; [|done|].
    + unfold loop_head. rewrite Hr, set_task_same; [by apply IH|done].
    + intros t' Ht'. rewrite Hl in Ht'. by simplify_eq.
Qed.

Lemma forallb_is_int32 (l : list Z) : Forall int32 l -> forallb is_int32 l = true.
Proof.
  induction 1 as [|x l Hx _ IH]; [done|]. cbn. rewrite IH.
  unfold int32 in Hx. unfold is_int32.
  destruct (Z.leb_spec (-2147483648) x), (Z.leb_spec x 2147483647);
    (done || lia).
Qed.

Lemma saved_entry_int32 (now : datetime) (io_ok : bool) (buffer : list Z) :
  buffer <> [] -> Forall int32 buffer ->
  saved_entry now io_ok buffer = [(npy_filename now, buffer, io_ok)].
Proof.
  intros Hne Hint. unfold saved_entry. destruct buffer; [done|].
  by rewrite forallb_is_int32.
Qed.

(** A task that sleeps one second at a time and was asleep when the last
    batch came finds the threshold exceeded at its sixth wake-up at the
    latest, less than a second after the threshold. *)
Lemma polling_first_late (t start : datetime) (n : nat) :
  t - 1 * usec < start <= t ->
  (6 <= n)%nat ->
  exists w,
    first_late t (polling start n) = Some (w, true)
    /\ t + STREAM_TIMEOUT_SEC * usec < w
          <= t + (STREAM_TIMEOUT_SEC + 1) * usec.
Proof.
  intros Hs Hn. do 6 (destruct n as [|n]; [lia|]).
  cbn [polling first_late fst]. unfold STREAM_TIMEOUT_SEC, usec in *.
  repeat match goal with
         | |- context [?a <? ?b] => destruct (Z.ltb_spec a b)
         end;
    try (eexists; split; [reflexivity|lia]); lia.
Qed.

(** C2. A session is receiving, holds 32-bit readings and its monitor is
    asleep; no further batch arrives. At the first wake-up that finds more
    than [STREAM_TIMEOUT_SEC] elapsed since the last batch (the write to
    storage succeeding), exactly one call of [np.save] is added, with exactly
    the buffered readings, and the server is Idle again: buffer empty,
    [is_receiving] false, [last_data_time] cleared, the task returned.
    Earlier and later wake-ups add nothing. With sleeps of one second such
    a wake-up is among the first six. *)
Theorem timeout_persists_once (s : Server) (tid : nat) (t : datetime) :
  tasks s !! tid = Some Sleeping ->
  is_receiving s = true ->
  last_data_time s = Some t ->
  data_stream_buffer s <> [] ->
  Forall int32 (data_stream_buffer s) ->
  (forall wakes w,
     first_late t wakes = Some (w, true) ->
     STREAM_TIMEOUT_SEC * usec < w - t
     /\ np_save_log (run (wake_ups tid wakes) s)
        = np_save_log s ++ [(npy_filename w, data_stream_buffer s, true)]
     /\ data_stream_buffer (run (wake_ups tid wakes) s) = []
     /\ is_receiving (run (wake_ups tid wakes) s) = false
     /\ last_data_time (run (wake_ups tid wakes) s) = None
     /\ tasks (run (wake_ups tid wakes) s) !! tid = Some Finished)
  /\ (forall start n,
        t - 1 * usec < start <= t -> (6 <= n)%nat ->
        exists w, first_late t (polling start n) = Some (w, true)
                  /\ w <= t + (STREAM_TIMEOUT_SEC + 1) * usec).
Proof.
  intros Ht Hr Hl Hne Hint. split.
  - intros wakes w Hf.
    rewrite (run_wake_ups_fire tid wakes t w true s) by done.
    split_and!; try done.
    + clear -Hf. induction wakes as [|w' wakes IH]; [done|]. cbn in Hf.
      destruct (Z.ltb_spec (STREAM_TIMEOUT_SEC * usec) (w'.1 - t));
        [by simplify_eq|by apply IH].
    + cbn. by rewrite saved_entry_int32.
    + cbn. apply list_lookup_insert_eq. by eapply lookup_lt_Some.
  - intros start n Hs Hn.
    destruct (polling_first_late t start n Hs Hn) as (w & Hf & Hw).
    exists w. split; [done|lia].
Qed.

Lemma timeout_persists_once_witness :
  (forall wakes w,
     first_late 1000000 wakes = Some (w, true) ->
     STREAM_TIMEOUT_SEC * usec < w - 1000000
     /\ np_save_log
          (run (wake_ups 0 wakes)
             (run [EvPost [1; 2; 3] 0; EvTimer 0 0 true;
                   EvPost [4; 5] 1000000] initial))
        = [(npy_filename w, [1; 2; 3; 4; 5], true)]
     /\ data_stream_buffer
          (run (wake_ups 0 wakes)
             (run [EvPost [1; 2; 3] 0; EvTimer 0 0 true;
                   EvPost [4; 5] 1000000] initial)) = []
     /\ is_receiving
          (run (wake_ups 0 wakes)
             (run [EvPost [1; 2; 3] 0; EvTimer 0 0 true;
                   EvPost [4; 5] 1000000] initial)) = false
     /\ last_data_time
          (run (wake_ups 0 wakes)
             (run [EvPost [1; 2; 3] 0; EvTimer 0 0 true;
                   EvPost [4; 5] 1000000] initial)) = None
     /\ tasks
          (run (wake_ups 0 wakes)
             (run [EvPost [1; 2; 3] 0; EvTimer 0 0 true;
                   EvPost [4; 5] 1000000] initial)) !! 0%nat
        = Some Finished)
  /\ (forall start n,
        1000000 - 1 * usec < start <= 1000000 -> (6 <= n)%nat ->
        exists w, first_late 1000000 (polling start n) = Some (w, true)
                  /\ w <= 1000000 + (STREAM_TIMEOUT_SEC + 1) * usec).
Proof.
  apply (timeout_persists_once
           (run [EvPost [1; 2; 3] 0; EvTimer 0 0 true; EvPost [4; 5] 1000000]
              initial) 0 1000000).
  - reflexivity.
  - reflexivity.
  - reflexivity.
  - discriminate.
  - cbn. repeat constructor; discriminate.
Defined.

(** The persister never raises: every exception of its body is caught and
    logged. *)
Lemma save_buffer_to_npy_total (now : datetime) (io_ok : bool) (s : Server) :
  (save_buffer_to_npy now io_ok s).1 = Ok tt.
Proof. by rewrite save_buffer_to_npy_spec. Qed.

(** The server state without its two records of effects. *)
Definition forget_effects (s : Server) : Server :=
  set_np_save_log [] (set_stdout [] s).

(** C8. When the monitor closes a session, whether the write to storage
    succeeds or fails: the persister returns normally and so does the body of
    the monitor, whose task ends returned and not failed; [np.save] is called
    at most once, and exactly once on a non-empty buffer of 32-bit readings;
    a failed write is logged; and buffer, status, timestamp and every other
    variable are left the same by a failed write as by a successful one. *)
Theorem persist_failure_contained (s : Server) (tid : nat) (now t : datetime)
    (io_ok : bool) :
  tasks s !! tid = Some Sleeping ->
  last_data_time s = Some t ->
  STREAM_TIMEOUT_SEC * usec < now - t ->
  (save_buffer_to_npy now io_ok s).1 = Ok tt
  /\ (check_stream_timeout_body now io_ok s).1 = Ok true
  /\ tasks (check_stream_timeout tid now io_ok s) !! tid = Some Finished
  /\ data_stream_buffer (check_stream_timeout tid now io_ok s) = []
  /\ is_receiving (check_stream_timeout tid now io_ok s) = false
  /\ last_data_time (check_stream_timeout tid now io_ok s) = None
  /\ (length (np_save_log (check_stream_timeout tid now io_ok s))
      <= S (length (np_save_log s)))%nat
  /\ (data_stream_buffer s <> [] -> Forall int32 (data_stream_buffer s) ->
      np_save_log (check_stream_timeout tid now io_ok s)
      = np_save_log s ++ [(npy_filename now, data_stream_buffer s, io_ok)])
  /\ (data_stream_buffer s <> [] -> Forall int32 (data_stream_buffer s) ->
      io_ok = false ->
      stdout (check_stream_timeout tid now io_ok s)
      = stdout s ++ [LogSessionTimeout (now - t); LogNpyError OSError])
  /\ forget_effects (check_stream_timeout tid now true s)
     = forget_effects (check_stream_timeout tid now false s).
Proof.
  intros Ht Hl Hlt.
  rewrite !(check_stream_timeout_fires tid now t) by done.
  rewrite (check_stream_timeout_body_late now t) by done.
  split_and!; try done.
  - apply save_buffer_to_npy_total.
  - cbn. apply list_lookup_insert_eq. by eapply lookup_lt_Some.
  - apply closed_log.
  - intros Hne Hint. cbn. by rewrite saved_entry_int32.
  - intros Hne Hint ->. cbn. unfold saved_line.
    destruct (data_stream_buffer s) eqn:Hb; [done|].
    by rewrite forallb_is_int32.
Qed.

Lemma persist_failure_contained_witness :
  tasks
    (check_stream_timeout 0 7000000 false
       (run [EvPost [1; 2; 3] 0; EvTimer 0 0 true] initial)) !! 0%nat
  = Some Finished
  /\ np_save_log
       (check_stream_timeout 0 7000000 false
          (run [EvPost [1; 2; 3] 0; EvTimer 0 0 true] initial))
     = [(7, [1; 2; 3], false)]
  /\ stdout
       (check_stream_timeout 0 7000000 false
          (run [EvPost [1; 2; 3] 0; EvTimer 0 0 true] initial))
     = [LogSessionStarted; LogSessionTimeout 7000000; LogNpyError OSError]
  /\ is_receiving
       (check_stream_timeout 0 7000000 false
          (run [EvPost [1; 2; 3] 0; EvTimer 0 0 true] initial)) = false.
Proof.
  destruct (persist_failure_contained
              (run [EvPost [1; 2; 3] 0; EvTimer 0 0 true] initial)
              0 7000000 0 false)
    as (_ & _ & Hfin & _ & Hidle & _ & _ & Hsave & Hlog & _).
  - reflexivity.
  - reflexivity.
  - unfold STREAM_TIMEOUT_SEC, usec. lia.
  - split_and!.
    + exact Hfin.
    + apply Hsave; [discriminate|]. cbn. repeat constructor; discriminate.
    + apply Hlog; [discriminate| |reflexivity].
      cbn. repeat constructor; discriminate.
    + exact Hidle.
Defined.

(** ** A new session *)

Lemma run_app (evs1 evs2 : list event) (s : Server) :
  run (evs1 ++ evs2) s = run evs2 (run evs1 s).
Proof. apply foldl_app. Qed.

Lemma idle_stays_idle (mid : list event) (s : Server) :
  is_receiving s = false -> has_post mid = false ->
  is_receiving (run mid s) = false.
Proof.
  revert s. induction mid as [|ev mid IH]; intros s Hr Hp; [done|].
  cbn [run foldl].
  change (foldl (fun s ev => step ev s) ?x mid) with (run mid x).
  destruct ev as [raw now|tid now io_ok|ws|ws|bid send_ok]; [done| | | |];
    cbn [has_post] in Hp.
  - apply IH; [|done]. cbn [step].
    destruct (check_stream_timeout_cases tid now io_ok s)
      as [->|[(t0 & _ & _ & ->)|(t & _ & _ & _ & ->)]]; done.
  - apply IH; [|done].
    by rewrite (same_receiving _ _ (step_observer (EvConnect ws) s I)).
  - apply IH; [|done].
    by rewrite (same_receiving _ _ (step_observer (EvDisconnect ws) s I)).
  - apply IH; [|done].
    by rewrite (same_receiving _ _
                  (step_observer (EvBroadcast bid send_ok) s I)).
Qed.

(** C9. A session is closed by its monitor; whatever happens then short of
    a new batch, the next non-empty batch opens a session whose buffer is
    exactly that batch, with one batch and as many points as the batch has
    counted, and the time of that batch as last activity. *)
Theorem new_session_excludes_old (s : Server) (tid : nat) (now t : datetime)
    (io_ok : bool) (mid : list event) (batch : list Z) (now' : datetime) :
  tasks s !! tid = Some Sleeping ->
  last_data_time s = Some t ->
  STREAM_TIMEOUT_SEC * usec < now - t ->
  has_post mid = false ->
  batch <> [] ->
  is_receiving (run (EvTimer tid now io_ok :: mid) s) = false
  /\ is_receiving
       (run (EvTimer tid now io_ok :: mid ++ [EvPost batch now']) s) = true
  /\ data_stream_buffer
       (run (EvTimer tid now io_ok :: mid ++ [EvPost batch now']) s) = batch
  /\ total_batches_received
       (run (EvTimer tid now io_ok :: mid ++ [EvPost batch now']) s) = 1
  /\ total_points_received
       (run (EvTimer tid now io_ok :: mid ++ [EvPost batch now']) s)
     = Z.of_nat (length batch)
  /\ last_data_time
       (run (EvTimer tid now io_ok :: mid ++ [EvPost batch now']) s)
     = Some now'.
Proof.
  intros Ht Hl Hlt Hmid Hb.
  assert (is_receiving (run (EvTimer tid now io_ok :: mid) s) = false) as Hidle.
  { change (run (EvTimer tid now io_ok :: mid) s)
      with (run mid (check_stream_timeout tid now io_ok s)).
    apply idle_stays_idle; [|done].
    by rewrite (check_stream_timeout_fires tid now t). }
  split; [done|].
  change (EvTimer tid now io_ok :: mid ++ [EvPost batch now'])
    with ((EvTimer tid now io_ok :: mid) ++ [EvPost batch now']).
  rewrite run_app.
  generalize dependent (run (EvTimer tid now io_ok :: mid) s).
  intros s1 Hidle. cbn [run foldl step].
  destruct (receive_co2_raw_data_accepts batch now' s1 Hb)
    as (s' & -> & Hr & Hbuf & Hl' & Hn & Hp & _).
  cbn [snd]. rewrite Hidle in *. by rewrite Hr, Hbuf, Hl', Hn, Hp.
Qed.

Lemma new_session_excludes_old_witness :
  data_stream_buffer
    (run (EvTimer 0 7000000 true
          :: [EvTimer 0 8000000 true; EvConnect 3%nat]
             ++ [EvPost [9; 8] 9000000])
       (run [EvPost [1; 2; 3] 0; EvTimer 0 0 true] initial)) = [9; 8]
  /\ total_batches_received
       (run (EvTimer 0 7000000 true
             :: [EvTimer 0 8000000 true; EvConnect 3%nat]
                ++ [EvPost [9; 8] 9000000])
          (run [EvPost [1; 2; 3] 0; EvTimer 0 0 true] initial)) = 1.
Proof.
  destruct (new_session_excludes_old
              (run [EvPost [1; 2; 3] 0; EvTimer 0 0 true] initial)
              0 7000000 0 true [EvTimer 0 8000000 true; EvConnect 3%nat]
              [9; 8] 9000000)
    as (_ & _ & Hbuf & Hn & _).
  - reflexivity.
  - reflexivity.
  - unfold STREAM_TIMEOUT_SEC, usec. lia.
  - reflexivity.
  - discriminate.
  - split; [exact Hbuf|exact Hn].
Defined.

(** ** Rejection of an empty batch *)

(** C4. A request fails exactly when the extracted batch is empty, with
    the 400 "No valid data" and the server state untouched, so that the
    stats still report no data after any number of rejected requests; a
    request with a non-empty batch succeeds and returns the number of
    values it carried. *)
Theorem empty_batch_rejected (s : Server) (raw : list Z) (now : datetime) :
  ((exists e, (receive_co2_raw_data raw now s).1 = Raise e) <-> raw = [])
  /\ (raw = [] ->
      receive_co2_raw_data raw now s
      = (Raise (HTTPException 400 "No valid data"), s))
  /\ (raw <> [] ->
      (receive_co2_raw_data raw now s).1
      = Ok {| status := "success"; received_count := length raw |})
  /\ (forall nows : list datetime,
        run (map (EvPost []) nows) initial = initial
        /\ get_stats (run (map (EvPost []) nows) initial) = Ok NoData).
Proof.
  split_and!.
  - split.
    + intros [e He]. destruct raw as [|x raw]; [done|].
      destruct (receive_co2_raw_data_accepts (x :: raw) now s ltac:(done))
        as (s' & E & _).
      by rewrite E in He.
    + intros ->. by eexists.
  - by intros ->.
  - intros Hraw.
    destruct (receive_co2_raw_data_accepts raw now s Hraw) as (s' & -> & _).
    done.
  - intros nows.
    assert (run (map (EvPost []) nows) initial = initial) as ->; [|done].
    induction nows as [|now' nows IH]; [done|exact IH].
Qed.

Lemma empty_batch_rejected_witness :
  receive_co2_raw_data [] 5 initial
  = (Raise (HTTPException 400 "No valid data"), initial)
  /\ (receive_co2_raw_data [421; 422] 5 initial).1
     = Ok {| status := "success"; received_count := 2 |}.
Proof.
  destruct (empty_batch_rejected initial [] 5) as (_ & Hrej & _).
  destruct (empty_batch_rejected initial [421; 422] 5) as (_ & _ & Hacc & _).
  split; [apply Hrej; reflexivity|apply Hacc; discriminate].
Defined.

(** C5. Every step of the server (a request, the resumption of a timeout
    task that closes the session or not, a websocket event, a broadcast)
    keeps the session invariant: the buffer is non-empty whenever the
    session is receiving, and [last_data_time] is set exactly when it is. *)
Theorem session_invariant_preserved (ev : event) (s : Server) :
  session_inv s -> session_inv (step ev s).
Proof. apply session_inv_step. Qed.

Lemma session_invariant_preserved_witness :
  session_inv (run [EvPost [421; 422] 0; EvTimer 0 1000000 true] initial)
  /\ session_inv
       (step (EvTimer 0 7000000 true)
          (run [EvPost [421; 422] 0; EvTimer 0 1000000 true] initial)).
Proof.
  assert (session_inv
            (run [EvPost [421; 422] 0; EvTimer 0 1000000 true] initial))
    as Hinv.
  { split; [discriminate|]. split; [reflexivity|]. intros _. by eexists. }
  split; [exact Hinv|].
  exact (session_invariant_preserved (EvTimer 0 7000000 true) _ Hinv).
Defined.

(** ** Broadcast *)

(** The request handler only creates the broadcast task; the task is
    given the list of the request, which is the buffer itself when the
    request has started the session. *)
Lemma receive_co2_raw_data_broadcast (raw : list Z) (now : datetime)
    (s : Server) :
  raw <> [] ->
  broadcast_tasks (receive_co2_raw_data raw now s).2
  = (if is_receiving s then broadcast_tasks s
     else map (keep_object (data_stream_buffer s)) (broadcast_tasks s))
    ++ match active_connections (manager s) with
       | [] => []
       | _ :: _ =>
           [BCreated (if is_receiving s then OwnList raw else BufferObject)]
       end.
Proof.
  intros Hraw. destruct raw as [|x raw]; [done|].
  receive_cases s; proj; by rewrite ?app_nil_r.
Qed.

(** Observers 1 and 2 are registered and a batch is posted. Its broadcast
    task starts and suspends in the send to observer 1. The channel of
    observer 1 closes: its endpoint unregisters it, and the send fails. *)
Definition observer_lost_during_send : list event :=
  [EvConnect 1%nat; EvConnect 2%nat; EvPost [1; 2; 3] 0;
   EvBroadcast 0 true; EvDisconnect 1%nat; EvBroadcast 0 false].

(** C6, on the code. After [observer_lost_during_send] the broadcast
    task has returned: its iterator was at position 1 of a list that by then
    held observer 2 alone, at position 0, so the loop was over. Observer 2,
    registered all along and never tried, has been sent nothing: the failure
    of observer 1 has kept the batch from it. Without the disconnection in
    between, the same batch reaches observer 2. *)
Theorem broadcast_skips_observer :
  broadcast_tasks (run observer_lost_during_send initial) !! 0%nat
  = Some BFinished
  /\ active_connections (manager (run observer_lost_during_send initial))
     = [2%nat]
  /\ ws_sent (run observer_lost_during_send initial) = []
  /\ ws_sent
       (run [EvConnect 1%nat; EvConnect 2%nat; EvPost [1; 2; 3] 0;
             EvBroadcast 0 true; EvBroadcast 0 false; EvBroadcast 0 true]
          initial)
     = [(2%nat, "[1, 2, 3]")].
Proof. split_and!; reflexivity. Qed.

(** With one observer, a second batch is handled before the broadcast
    task of the first batch of the session has run: the list of that task is
    the buffer, which the second request has extended, and the observer is
    sent both batches in the first message. *)
Lemma broadcast_sends_the_shared_list :
  ws_sent
    (run [EvConnect 2%nat; EvPost [1; 2; 3] 0; EvPost [4; 5] 1000;
          EvBroadcast 0 true; EvBroadcast 0 true;
          EvBroadcast 1 true; EvBroadcast 1 true] initial)
  = [(2%nat, "[1, 2, 3, 4, 5]"); (2%nat, "[4, 5]")].
Proof. reflexivity. Qed.

(** ** One monitor at a time *)

(** C7. In every state reached by any interleaving of requests,
    resumptions of timeout tasks, websocket events and broadcasts: at most
    one timeout task is armed, and one is armed exactly while the session is
    receiving; a request starts a new task only when every earlier task has
    ended, and then exactly one is armed; no task has ended by an exception;
    every session that was started has been closed exactly once, save the
    one still receiving, and [np.save] has been called at most once per
    closed session. *)
Theorem single_armed_monitor (s : Server) :
  reachable s ->
  (armed s <= 1)%nat
  /\ armed s = (if is_receiving s then 1 else 0)%nat
  /\ (forall raw now,
        (length (tasks s) < length (tasks (step (EvPost raw now) s)))%nat ->
        Forall (fun t => live t = false) (tasks s)
        /\ armed (step (EvPost raw now) s) = 1%nat)
  /\ (forall tid e, tasks s !! tid <> Some (Failed e))
  /\ sessions_started s
     = (sessions_closed s + if is_receiving s then 1 else 0)%nat
  /\ (length (np_save_log s) <= sessions_closed s)%nat.
Proof.
  intros Hreach.
  pose proof (reachable_monitor_inv s Hreach) as [H1 H2 H3 H4 H5].
  split_and!; try done.
  - rewrite H1. destruct (is_receiving s); lia.
  - intros raw now Hgrow.
    pose proof (reachable_monitor_inv _ (reachable_step (EvPost raw now) s Hreach))
      as [H1' _ _ _ _].
    destruct raw as [|x raw]; [cbn in Hgrow; lia|].
    destruct (receive_co2_raw_data_accepts (x :: raw) now s ltac:(done))
      as (s' & E & Hr & _ & _ & _ & _ & Hts & _).
    cbn [step] in *. rewrite E in *. cbn [snd] in *.
    rewrite Hr in H1'. split; [|done].
    destruct (is_receiving s); [rewrite Hts in Hgrow; lia|].
    unfold armed in H1. clear -H1.
    induction (tasks s) as [|t l IH]; [done|].
    cbn in H1. destruct (live t) eqn:Hl; [done|]. constructor; auto.
Qed.

(** Two sessions: the first is closed by its monitor, the second is open. *)
Definition two_sessions : list event :=
  [EvPost [1; 2; 3] 0; EvTimer 0 0 true; EvTimer 0 6000001 true;
   EvPost [4] 7000000; EvTimer 0 8000000 true; EvTimer 1 9000000 true].

Lemma single_armed_monitor_witness :
  (armed (run two_sessions initial) <= 1)%nat
  /\ sessions_started (run two_sessions initial)
     = S (sessions_closed (run two_sessions initial)).
Proof.
  destruct (single_armed_monitor (run two_sessions initial))
    as (Hle & _ & _ & _ & Hst & _).
  - apply reachable_run, reachable_initial.
  - split; [exact Hle|]. rewrite Hst. vm_compute. reflexivity.
Defined.

(** ** Stats *)

(** C10. In every reachable state a non-empty buffer implies that the
    session is receiving; hence every answer of the stats endpoint that
    carries statistics has status "active", and once the session is closed
    the endpoint answers "no_data". *)
Theorem ended_status_unreachable (s : Server) :
  reachable s ->
  (data_stream_buffer s <> [] -> is_receiving s = true)
  /\ (forall r, get_stats s = Ok (Stats r) -> stats_status r = Active)
  /\ (is_receiving s = false -> get_stats s = Ok NoData).
Proof.
  intros Hreach.
  pose proof (inv_idle_empty _ (reachable_monitor_inv s Hreach)) as Hidle.
  split_and!.
  - intros Hne. destruct (is_receiving s); [done|]. by destruct Hne; apply Hidle.
  - intros r. unfold get_stats.
    destruct (is_receiving s) eqn:Hr.
    + destruct (data_stream_buffer s); [done|].
      destruct (np_array_int32 _) as [a|]; [|done].
      destruct (np_min a), (np_max a); try done. by intros [= <-].
    + by rewrite Hidle.
  - intros Hr. unfold get_stats. by rewrite Hidle.
Qed.

Lemma ended_status_unreachable_witness :
  get_stats
    (run [EvPost [1; 2; 3] 0; EvTimer 0 0 true; EvTimer 0 6000001 true]
       initial) = Ok NoData.
Proof.
  destruct (ended_status_unreachable
              (run [EvPost [1; 2; 3] 0; EvTimer 0 0 true;
                    EvTimer 0 6000001 true] initial))
    as (_ & _ & Hnone).
  - apply reachable_run, reachable_initial.
  - apply Hnone. vm_compute. reflexivity.
Defined.

(** While the buffer holds 32-bit readings the statistics are those of
    the buffer as it stands. *)
Lemma get_stats_of_buffer (s : Server) (x : Z) (r : list Z) :
  data_stream_buffer s = x :: r ->
  Forall int32 (x :: r) ->
  get_stats s
  = Ok (Stats {|
      stats_status := if is_receiving s then Active else Ended;
      total_points := length (x :: r);
      total_batches := total_batches_received s;
      average := np_mean (x :: r);
      stats_min := foldl Z.min x r;
      stats_max := foldl Z.max x r;
      std_squared := np_var (x :: r);
      last_update := last_data_time s |}).
Proof.
  intros Hb Hint. unfold get_stats, np_array_int32. rewrite Hb.
  by rewrite forallb_is_int32.
Qed.

(** C3, on the code. One session is started by [[1; 2; 3]] and closed
    by its monitor six seconds later: the stats endpoint then answers
    "no_data", although a session has been started, closed and saved, while
    it answered with the statistics of the buffer before the closure. *)
Theorem get_stats_after_close :
  get_stats
    (run [EvPost [1; 2; 3] 0; EvTimer 0 0 true; EvTimer 0 6000001 true]
       initial) = Ok NoData
  /\ sessions_started
       (run [EvPost [1; 2; 3] 0; EvTimer 0 0 true; EvTimer 0 6000001 true]
          initial) = 1%nat
  /\ sessions_closed
       (run [EvPost [1; 2; 3] 0; EvTimer 0 0 true; EvTimer 0 6000001 true]
          initial) = 1%nat
  /\ np_save_log
       (run [EvPost [1; 2; 3] 0; EvTimer 0 0 true; EvTimer 0 6000001 true]
          initial) = [(6, [1; 2; 3], true)]
  /\ get_stats (run [EvPost [1; 2; 3] 0; EvTimer 0 0 true] initial)
     = Ok (Stats {|
         stats_status := Active;
         total_points := 3;
         total_batches := 1;
         average := np_mean [1; 2; 3];
         stats_min := 1;
         stats_max := 3;
         std_squared := np_var [1; 2; 3];
         last_update := Some 0 |}).
Proof.
  split_and!.
  - reflexivity.
  - reflexivity.
  - reflexivity.
  - reflexivity.
  - rewrite (get_stats_of_buffer _ 1 [2; 3]).
    + reflexivity.
    + reflexivity.
    + repeat constructor; discriminate.
Qed.

(** * Further properties of the code *)

(** ** The registry of connections *)

Lemma list_remove_length (x : WebSocket) (l : list WebSocket) :
  x ∈ l -> S (length (list_remove x l)) = length l.
Proof.
  induction l as [|y l IH]; intros Hx; [by apply elem_of_nil in Hx|].
  cbn. destruct (decide (x = y)) as [->|Hne]; [done|].
  cbn. f_equal. apply IH. apply elem_of_cons in Hx as [?|?]; done.
Qed.

Lemma list_remove_filter (x : WebSocket) (l : list WebSocket) :
  NoDup l -> list_remove x l = filter (fun y => y <> x) l.
Proof.
  induction 1 as [|y l Hy Hl IH]; [done|].
  rewrite filter_cons. cbn [list_remove].
  destruct (decide (x = y)) as [->|Hne].
  - rewrite decide_False by (intros H; by apply H).
    rewrite <- IH. by rewrite list_remove_notin.
  - rewrite decide_True by congruence. by rewrite IH.
Qed.

Lemma list_remove_app_fresh (x : WebSocket) (l : list WebSocket) :
  x ∉ l -> list_remove x (l ++ [x]) = l.
Proof.
  induction l as [|y l IH]; intros Hx; cbn.
  - by rewrite decide_True.
  - rewrite decide_False.
    + f_equal. apply IH. intros ?. apply Hx. by right.
    + intros ->. apply Hx. by left.
Qed.

(** X1. [disconnect] of a websocket that is not registered does nothing
    at all, not even a log line; [disconnect] of a registered one removes
    exactly one registration and logs the new number of clients. *)
Theorem disconnect_removes_one (ws : WebSocket) (s : Server) :
  (ws ∉ active_connections (manager s) -> disconnect ws s = (Ok tt, s))
  /\ (ws ∈ active_connections (manager s) ->
      (disconnect ws s).1 = Ok tt
      /\ S (length (active_connections (manager (disconnect ws s).2)))
         = length (active_connections (manager s))
      /\ stdout (disconnect ws s).2
         = stdout s
           ++ [LogWsDisconnected
                 (length (active_connections (manager (disconnect ws s).2)))]).
Proof.
  split; intros Hws; unfold disconnect; mstep.
  - by rewrite decide_False.
  - rewrite decide_True by done. mstep. cbn.
    split_and!; [done| |done]. by apply list_remove_length.
Qed.

Lemma disconnect_removes_one_witness :
  disconnect 9%nat (run [EvConnect 1%nat; EvConnect 2%nat] initial)
  = (Ok tt, run [EvConnect 1%nat; EvConnect 2%nat] initial)
  /\ S (length
          (active_connections
             (manager
                (disconnect 1%nat
                   (run [EvConnect 1%nat; EvConnect 2%nat] initial)).2)))
     = length
         (active_connections
            (manager (run [EvConnect 1%nat; EvConnect 2%nat] initial))).
Proof.
  destruct (disconnect_removes_one 9%nat
              (run [EvConnect 1%nat; EvConnect 2%nat] initial)) as [Hno _].
  destruct (disconnect_removes_one 1%nat
              (run [EvConnect 1%nat; EvConnect 2%nat] initial)) as [_ Hyes].
  split.
  - apply Hno. cbn. intros Hin. apply elem_of_cons in Hin as [Hin|Hin]; [lia|].
    apply elem_of_cons in Hin as [Hin|Hin]; [lia|].
    by apply elem_of_nil in Hin.
  - apply Hyes. cbn. by left.
Defined.

(** X2. A websocket that is not yet registered connects and later
    disconnects: the registry is as it was before, the session is
    untouched, and the log shows the number of clients going up by one and
    back. *)
Theorem connect_disconnect_round_trip (ws : WebSocket) (s : Server) :
  ws ∉ active_connections (manager s) ->
  (disconnect ws (connect ws s).2).1 = Ok tt
  /\ active_connections (manager (disconnect ws (connect ws s).2).2)
     = active_connections (manager s)
  /\ stdout (disconnect ws (connect ws s).2).2
     = stdout s
       ++ [LogWsConnected (S (length (active_connections (manager s))));
           LogWsDisconnected (length (active_connections (manager s)))]
  /\ same_session s (disconnect ws (connect ws s).2).2.
Proof.
  intros Hws.
  destruct (connect_spec ws s) as (s1 & E1 & Hact1 & _ & Hsame1).
  destruct (disconnect_spec ws s1) as (s2 & E2 & Hact2 & _ & Hsame2).
  assert (stdout s1
          = stdout s
            ++ [LogWsConnected (S (length (active_connections (manager s))))])
    as Hout1.
  { assert (s1 = (connect ws s).2) as -> by (by rewrite E1).
    unfold connect. mstep. cbn. rewrite length_app. cbn.
    by rewrite Nat.add_1_r. }
  assert (ws ∈ active_connections (manager s1)) as Hin.
  { rewrite Hact1. apply elem_of_app. right. by left. }
  destruct (disconnect_removes_one ws s1) as [_ Hrm].
  destruct (Hrm Hin) as (_ & _ & Hout2).
  rewrite E1. cbn [snd]. rewrite E2 in *. cbn [fst snd] in *.
  rewrite Hout2, Hout1, Hact2, Hact1, list_remove_app_fresh by done.
  split_and!; [done|done|by rewrite <- app_assoc|].
  by eapply same_session_trans.
Qed.

Lemma connect_disconnect_round_trip_witness :
  active_connections
    (manager
       (disconnect 5%nat
          (connect 5%nat (run [EvConnect 1%nat; EvConnect 2%nat] initial)).2).2)
  = active_connections
      (manager (run [EvConnect 1%nat; EvConnect 2%nat] initial)).
Proof.
  apply (connect_disconnect_round_trip 5%nat
           (run [EvConnect 1%nat; EvConnect 2%nat] initial)).
  cbn. intros Hin. apply elem_of_cons in Hin as [Hin|Hin]; [lia|].
  apply elem_of_cons in Hin as [Hin|Hin]; [lia|].
  by apply elem_of_nil in Hin.
Defined.

(** *** What a broadcast step leaves alone *)

Lemma connect_broadcast_tasks (ws : WebSocket) (s : Server) :
  broadcast_tasks (connect ws s).2 = broadcast_tasks s.
Proof. reflexivity. Qed.

Lemma disconnect_broadcast_tasks (ws : WebSocket) (s : Server) :
  broadcast_tasks (disconnect ws s).2 = broadcast_tasks s.
Proof.
  unfold disconnect. mstep0.
  by destruct (decide (ws ∈ active_connections (manager s))).
Qed.

Lemma disconnect_all_broadcast_tasks (disconnected : list WebSocket)
    (s : Server) :
  broadcast_tasks (disconnect_all disconnected s).2 = broadcast_tasks s.
Proof.
  revert s. induction disconnected as [|c rest IH]; intros s; [done|].
  cbn [disconnect_all]. mstep0.
  destruct (disconnect_spec c s) as (s1 & E1 & _).
  pose proof (disconnect_broadcast_tasks c s) as H1.
  rewrite E1 in *. cbn [snd] in H1. by rewrite IH.
Qed.

Lemma broadcast_next_broadcast_tasks (message : string) (next : nat)
    (disconnected : list WebSocket) (s : Server) :
  broadcast_tasks (broadcast_next message next disconnected s).2
  = broadcast_tasks s.
Proof.
  unfold broadcast_next. mstep0.
  destruct (active_connections (manager s) !! next); [done|].
  pose proof (disconnect_all_broadcast_tasks disconnected s) as H.
  by destruct (disconnect_all disconnected s) as [[[]|e] s'].
Qed.

Lemma elem_of_list_remove (x y : WebSocket) (l : list WebSocket) :
  x ∈ list_remove y l -> x ∈ l.
Proof.
  induction l as [|z l IH]; [done|]. cbn.
  destruct (decide (y = z)); [by right|].
  intros [->|Hx]%elem_of_cons; [by left|right; by apply IH].
Qed.

Lemma elem_of_remove_all (x : WebSocket) (ds l : list WebSocket) :
  x ∈ foldl (fun l c => list_remove c l) l ds -> x ∈ l.
Proof.
  revert l. induction ds as [|d ds IH]; intros l; [done|]. cbn.
  intros Hx. eapply elem_of_list_remove. by apply IH.
Qed.

(** *** An unregistered websocket *)

(** No task is suspended in a send to [ws]. *)
Definition no_send_pending (ws : WebSocket) (s : Server) : Prop :=
  Forall (fun t => match t with
                   | BSending _ _ _ connection => connection <> ws
                   | _ => True
                   end) (broadcast_tasks s).

Lemma no_send_pending_insert (ws : WebSocket) (bid : nat)
    (t : broadcast_task) (s s' : Server) :
  broadcast_tasks s' = broadcast_tasks s ->
  match t with BSending _ _ _ c => c <> ws | _ => True end ->
  no_send_pending ws s -> no_send_pending ws (set_broadcast_task bid t s').
Proof.
  unfold no_send_pending. intros Hs' Ht Hall. cbn. rewrite Hs'.
  by apply Forall_insert.
Qed.

Lemma no_send_pending_keep (ws : WebSocket) (values : list Z)
    (l : list broadcast_task) :
  Forall (fun t => match t with
                   | BSending _ _ _ connection => connection <> ws
                   | _ => True
                   end) l ->
  Forall (fun t => match t with
                   | BSending _ _ _ connection => connection <> ws
                   | _ => True
                   end) (map (keep_object values) l).
Proof.
  induction 1 as [|t l Ht _ IH]; [done|]. cbn. constructor; [|done].
  by destruct t as [[]| | |].
Qed.

Lemma receive_co2_raw_data_ws_sent (raw : list Z) (now : datetime)
    (s : Server) :
  ws_sent (receive_co2_raw_data raw now s).2 = ws_sent s.
Proof.
  destruct raw as [|x raw]; [done|]. receive_cases s; by proj.
Qed.

(** One step of the event loop, other than the connection of [ws], sends
    nothing to a websocket that is not registered and that no task is
    sending to, and leaves it so. *)
Lemma unregistered_step (ws : WebSocket) (ev : event) (s : Server) :
  ws ∉ active_connections (manager s) ->
  no_send_pending ws s ->
  ev <> EvConnect ws ->
  (ws ∉ active_connections (manager (step ev s)))
  /\ no_send_pending ws (step ev s)
  /\ exists sent, ws_sent (step ev s) = ws_sent s ++ sent
                  /\ Forall (fun m => m.1 <> ws) sent.
Proof.
  intros Hreg Hpend Hev.
  destruct ev as [raw now|tid now io_ok|ws'|ws'|bid send_ok].
  - cbn [step]. rewrite receive_co2_raw_data_ws_sent.
    destruct raw as [|x raw].
    { split_and!; [done|done|]. exists []. by rewrite app_nil_r. }
    pose proof (receive_co2_raw_data_broadcast (x :: raw) now s ltac:(done))
      as Hbt.
    destruct (receive_co2_raw_data_accepts (x :: raw) now s ltac:(done))
      as (s' & E & _ & _ & _ & _ & _ & _ & _ & Hman).
    rewrite E in *. cbn [snd] in *. rewrite Hman.
    split_and!; [done| |exists []; by rewrite app_nil_r].
    unfold no_send_pending in *. rewrite Hbt. apply Forall_app. split.
    + destruct (is_receiving s); [done|by apply no_send_pending_keep].
    + destruct (active_connections (manager s)); by repeat constructor.
  - cbn [step].
    destruct (check_stream_timeout_cases tid now io_ok s)
      as [->|[(t0 & _ & _ & ->)|(t & _ & _ & _ & ->)]].
    + split_and!; [done|done|]. exists []. by rewrite app_nil_r.
    + split_and!; [done|done|]. exists []. by rewrite app_nil_r.
    + split_and!; [done| |exists []; by rewrite app_nil_r].
      unfold no_send_pending. cbn. by apply no_send_pending_keep.
  - cbn [step].
    destruct (connect_spec ws' s) as (s' & E & Hact & Hsent & _).
    pose proof (connect_broadcast_tasks ws' s) as Hbt.
    rewrite E in *. cbn [snd] in *. rewrite Hact, Hsent.
    split_and!.
    + intros [?|Hin]%elem_of_app; [done|].
      apply list_elem_of_singleton in Hin. congruence.
    + unfold no_send_pending. by rewrite Hbt.
    + exists []. by rewrite app_nil_r.
  - cbn [step].
    destruct (disconnect_spec ws' s) as (s' & E & Hact & Hsent & _).
    pose proof (disconnect_broadcast_tasks ws' s) as Hbt.
    rewrite E in *. cbn [snd] in *. rewrite Hact, Hsent.
    split_and!.
    + intros Hin. by apply elem_of_list_remove in Hin.
    + unfold no_send_pending. by rewrite Hbt.
    + exists []. by rewrite app_nil_r.
  - cbn [step]. destruct (broadcast_tasks s !! bid) as [t|] eqn:Ht.
    2:{ split_and!; [done|done|]. exists []. by rewrite app_nil_r. }
    assert (match t with BSending _ _ _ c => c <> ws | _ => True end) as Htws.
    { unfold no_send_pending in Hpend. rewrite Forall_lookup in Hpend.
      by apply (Hpend bid). }
    assert (forall message next disconnected s1,
              active_connections (manager s1) = active_connections (manager s) ->
              broadcast_tasks s1 = broadcast_tasks s ->
              (ws ∉ active_connections
                      (manager
                         (match broadcast_next message next disconnected s1 with
                          | (Ok t', s') => set_broadcast_task bid t' s'
                          | (Raise e, s') => set_broadcast_task bid (BFailed e) s'
                          end)))
              /\ no_send_pending ws
                   (match broadcast_next message next disconnected s1 with
                    | (Ok t', s') => set_broadcast_task bid t' s'
                    | (Raise e, s') => set_broadcast_task bid (BFailed e) s'
                    end)
              /\ ws_sent
                   (match broadcast_next message next disconnected s1 with
                    | (Ok t', s') => set_broadcast_task bid t' s'
                    | (Raise e, s') => set_broadcast_task bid (BFailed e) s'
                    end) = ws_sent s1) as Hnext.
    { intros message next disconnected s1 Hman Hbt.
      pose proof (broadcast_next_broadcast_tasks message next disconnected s1)
        as Hbt'.
      destruct (broadcast_next_spec message next disconnected s1)
        as (t' & s' & E & Hsent & _ & Hcase).
      rewrite E in *. cbn [snd] in Hbt'.
      destruct (active_connections (manager s1) !! next) as [c|] eqn:Hc.
      - destruct Hcase as [-> ->].
        split_and!; [unfold set_broadcast_task; proj; by rewrite Hman| |done].
        apply (no_send_pending_insert ws bid _ s); [done| |done].
        intros ->. apply Hreg. rewrite <- Hman.
        by eapply list_elem_of_lookup_2.
      - destruct Hcase as [-> Hact]. split_and!; [| |done].
        + unfold set_broadcast_task. proj. rewrite Hact, Hman. intros Hin.
          by apply elem_of_remove_all in Hin.
        + apply (no_send_pending_insert ws bid _ s); [congruence|done|done]. }
    destruct t as [data|message next disconnected connection| |e].
    + unfold broadcast_data. mstep0.
      destruct (Hnext (json_dumps (payload_values data s)) 0%nat [] s
                  eq_refl eq_refl) as (H1 & H2 & H3).
      split_and!; [done|done|]. exists []. by rewrite app_nil_r.
    + rewrite broadcast_data_sending.
      destruct (Hnext message next
                  (if send_ok then disconnected
                   else disconnected ++ [connection])
                  (after_send send_ok connection message s))
        as (H1 & H2 & H3);
        [by destruct send_ok|by destruct send_ok|].
      split_and!; [done|done|]. rewrite H3. destruct send_ok; cbn.
      * exists [(connection, message)]. split; [done|]. by repeat constructor.
      * exists []. by rewrite app_nil_r.
    + cbn. split_and!; [done| |exists []; by rewrite app_nil_r].
      by apply (no_send_pending_insert ws bid _ s).
    + cbn. split_and!; [done| |exists []; by rewrite app_nil_r].
      by apply (no_send_pending_insert ws bid _ s).
Qed.

(** X3. A websocket is disconnected from a registry without duplicates
    while no task is sending to it. Then it is no longer registered, and
    whatever runs afterwards, in any interleaving of requests, monitors,
    other websockets and broadcast tasks, nothing is sent to it as long as
    it does not connect again. *)
Theorem disconnected_gets_nothing (ws : WebSocket) (evs : list event)
    (s : Server) :
  NoDup (active_connections (manager s)) ->
  no_send_pending ws s ->
  Forall (fun ev => ev <> EvConnect ws) evs ->
  (ws ∉ active_connections (manager (disconnect ws s).2))
  /\ NoDup (active_connections (manager (disconnect ws s).2))
  /\ exists sent,
       ws_sent (run evs (disconnect ws s).2) = ws_sent s ++ sent
       /\ Forall (fun m => m.1 <> ws) sent.
Proof.
  intros Hnd Hpend Hevs.
  destruct (disconnect_spec ws s) as (s1 & E1 & Hact1 & Hsent1 & _).
  pose proof (disconnect_broadcast_tasks ws s) as Hbt.
  rewrite E1 in *. cbn [snd] in *.
  rewrite (list_remove_filter _ _ Hnd) in Hact1.
  assert (ws ∉ active_connections (manager s1)) as Hout.
  { rewrite Hact1. intros Hin. apply list_elem_of_filter in Hin as [Hne _].
    by apply Hne. }
  split_and!; [done|rewrite Hact1; by apply NoDup_filter|].
  assert (no_send_pending ws s1) as Hpend1.
  { unfold no_send_pending. by rewrite Hbt. }
  rewrite <- Hsent1. clear -Hout Hpend1 Hevs. revert s1 Hout Hpend1.
  induction Hevs as [|ev evs Hev _ IH]; intros s1 Hout Hpend1.
  { exists []. by rewrite app_nil_r. }
  destruct (unregistered_step ws ev s1 Hout Hpend1 Hev)
    as (Hout' & Hpend' & sent1 & Hs1 & Hall1).
  destruct (IH (step ev s1) Hout' Hpend') as (sent2 & Hs2 & Hall2).
  exists (sent1 ++ sent2). cbn [run foldl].
  change (foldl (fun s ev => step ev s) ?x evs) with (run evs x).
  rewrite Hs2, Hs1, app_assoc. split; [done|]. by apply Forall_app.
Qed.

Lemma disconnected_gets_nothing_witness :
  exists sent,
    ws_sent
      (run [EvPost [7] 0; EvBroadcast 0 true; EvBroadcast 0 true]
         (disconnect 1%nat (run [EvConnect 1%nat; EvConnect 2%nat] initial)).2)
    = ws_sent (run [EvConnect 1%nat; EvConnect 2%nat] initial) ++ sent
    /\ Forall (fun m => m.1 <> 1%nat) sent.
Proof.
  destruct (disconnected_gets_nothing 1%nat
              [EvPost [7] 0; EvBroadcast 0 true; EvBroadcast 0 true]
              (run [EvConnect 1%nat; EvConnect 2%nat] initial))
    as (_ & _ & Hsent).
  - cbn. apply NoDup_cons. split; [|apply NoDup_singleton].
    intros Hin. apply list_elem_of_singleton in Hin. lia.
  - constructor.
  - repeat constructor; discriminate.
  - exact Hsent.
Defined.

(** *** A broadcast that nothing interrupts *)

(** The task [bid] is resumed until it ends, no other task running in
    between; [channel_open] tells which sends succeed. *)
Fixpoint run_broadcast (fuel : nat) (channel_open : WebSocket -> bool)
    (bid : nat) (s : Server) : Server :=
  match fuel with
  | O => s
  | S fuel =>
      match broadcast_tasks s !! bid with
      | Some (BCreated _) =>
          run_broadcast fuel channel_open bid (step (EvBroadcast bid true) s)
      | Some (BSending _ _ _ connection) =>
          run_broadcast fuel channel_open bid
            (step (EvBroadcast bid (channel_open connection)) s)
      | _ => s
      end
  end.

Lemma run_broadcast_finished (fuel : nat) (channel_open : WebSocket -> bool)
    (bid : nat) (s : Server) :
  broadcast_tasks s !! bid = Some BFinished ->
  run_broadcast fuel channel_open bid s = s.
Proof. intros H. destruct fuel; [done|]. cbn. by rewrite H. Qed.

Lemma run_broadcast_sending (channel_open : WebSocket -> bool) (bid : nat)
    (message : string) (fuel : nat) :
  forall (k : nat) (disconnected : list WebSocket) (c : WebSocket)
         (s : Server),
    broadcast_tasks s !! bid = Some (BSending message (S k) disconnected c) ->
    active_connections (manager s) !! k = Some c ->
    (length (active_connections (manager s)) - k <= fuel)%nat ->
    broadcast_tasks (run_broadcast fuel channel_open bid s) !! bid
    = Some BFinished
    /\ ws_sent (run_broadcast fuel channel_open bid s)
       = ws_sent s
         ++ map (fun c => (c, message))
              (filter (fun c => channel_open c = true)
                 (drop k (active_connections (manager s))))
    /\ active_connections (manager (run_broadcast fuel channel_open bid s))
       = foldl (fun l c => list_remove c l) (active_connections (manager s))
           (disconnected
            ++ filter (fun c => channel_open c = false)
                 (drop k (active_connections (manager s))))
    /\ same_session s (run_broadcast fuel channel_open bid s).
Proof.
  induction fuel as [|fuel IH]; intros k disconnected c s Ht Hc Hfuel.
  { apply lookup_lt_Some in Hc. lia. }
  cbn [run_broadcast]. rewrite Ht. cbn [step]. rewrite Ht.
  rewrite broadcast_data_sending.
  set (d1 := if channel_open c then disconnected else disconnected ++ [c]).
  set (s1 := after_send (channel_open c) c message s).
  assert (active_connections (manager s1) = active_connections (manager s))
    as Hman1 by (unfold s1; by destruct (channel_open c)).
  assert (broadcast_tasks s1 = broadcast_tasks s)
    as Hbt1 by (unfold s1; by destruct (channel_open c)).
  assert (ws_sent s1
          = ws_sent s ++ (if channel_open c then [(c, message)] else []))
    as Hsent1.
  { unfold s1. destruct (channel_open c); cbn; [done|by rewrite app_nil_r]. }
  pose proof (same_session_after_send (channel_open c) c message s) as Hsame1.
  fold s1 in Hsame1.
  pose proof (broadcast_next_broadcast_tasks message (S k) d1 s1) as Hbt2.
  destruct (broadcast_next_spec message (S k) d1 s1)
    as (t' & s2 & E & Hsent2 & Hsame2 & Hcase).
  rewrite E in *. cbn [snd] in Hbt2.
  rewrite (drop_S _ _ _ Hc), !filter_cons.
  assert (bid < length (broadcast_tasks s2))%nat as Hbid.
  { rewrite Hbt2, Hbt1. by eapply lookup_lt_Some. }
  destruct (active_connections (manager s1) !! S k) as [c'|] eqn:Hc'.
  - destruct Hcase as [-> ->].
    destruct (IH (S k) d1 c' (set_broadcast_task bid
                                (BSending message (S (S k)) d1 c') s1))
      as (Hfin & Hsent & Hact & Hsame).
    + cbn. by apply list_lookup_insert_eq.
    + done.
    + cbn [set_broadcast_task]. unfold set_broadcast_task. proj.
      rewrite Hman1. lia.
    + rewrite Hfin, Hsent, Hact. unfold set_broadcast_task. proj.
      rewrite Hman1, Hsent1. unfold d1.
      split_and!; [done| | |].
      * destruct (channel_open c) eqn:Hopen.
        -- rewrite decide_True by done. cbn. by rewrite <- app_assoc.
        -- rewrite decide_False by congruence. by rewrite app_nil_r.
      * destruct (channel_open c) eqn:Hopen.
        -- by rewrite decide_False by congruence.
        -- rewrite decide_True by done. by rewrite <- app_assoc.
      * eapply same_session_trans; [exact Hsame1|].
        eapply same_session_trans; [|exact Hsame].
        unfold set_broadcast_task. auto with session.
  - destruct Hcase as [-> Hact2].
    rewrite run_broadcast_finished by (cbn; by apply list_lookup_insert_eq).
    assert (drop (S k) (active_connections (manager s)) = []) as ->.
    { apply drop_ge. rewrite <- Hman1. by apply lookup_ge_None. }
    unfold set_broadcast_task. proj.
    rewrite Hsent2, Hsent1, Hact2, Hman1. unfold d1.
    split_and!; [by apply list_lookup_insert_eq| | |].
    + destruct (channel_open c) eqn:Hopen.
      * by rewrite decide_True by done.
      * by rewrite decide_False by congruence.
    + destruct (channel_open c) eqn:Hopen.
      * rewrite decide_False by congruence. by rewrite app_nil_r.
      * by rewrite decide_True by done.
    + eapply same_session_trans; [exact Hsame1|].
      eapply same_session_trans; [exact Hsame2|]. auto with session.
Qed.

(** X4. A broadcast task that runs from its creation to its end with no
    other task in between returns; every registered observer whose channel is
    open is sent the serialized list of the task, once and in the order of
    the registry, whether or not the sends to others failed; the observers
    left registered are exactly those whose send succeeded; the session is
    untouched. *)
Theorem broadcast_uninterrupted (channel_open : WebSocket -> bool)
    (bid fuel : nat) (data : payload) (s : Server) :
  broadcast_tasks s !! bid = Some (BCreated data) ->
  (length (active_connections (manager s)) < fuel)%nat ->
  broadcast_tasks (run_broadcast fuel channel_open bid s) !! bid
  = Some BFinished
  /\ ws_sent (run_broadcast fuel channel_open bid s)
     = ws_sent s
       ++ map (fun c => (c, json_dumps (payload_values data s)))
            (filter (fun c => channel_open c = true)
               (active_connections (manager s)))
  /\ active_connections (manager (run_broadcast fuel channel_open bid s))
     = filter (fun c => channel_open c = true)
         (active_connections (manager s))
  /\ same_session s (run_broadcast fuel channel_open bid s).
Proof.
  intros Ht Hfuel. destruct fuel as [|fuel]; [lia|].
  cbn [run_broadcast]. rewrite Ht. cbn [step]. rewrite Ht.
  unfold broadcast_data. mstep0.
  set (message := json_dumps (payload_values data s)).
  pose proof (broadcast_next_broadcast_tasks message 0 [] s) as Hbt.
  destruct (broadcast_next_spec message 0 [] s)
    as (t' & s1 & E & Hsent1 & Hsame1 & Hcase).
  rewrite E in *. cbn [snd] in Hbt.
  assert (bid < length (broadcast_tasks s1))%nat as Hbid.
  { rewrite Hbt. by eapply lookup_lt_Some. }
  destruct (active_connections (manager s) !! 0%nat) as [c|] eqn:Hc.
  - destruct Hcase as [-> ->].
    destruct (run_broadcast_sending channel_open bid message fuel 0 [] c
                (set_broadcast_task bid (BSending message 1 [] c) s))
      as (Hfin & Hsent & Hact & Hsame).
    + cbn. by apply list_lookup_insert_eq.
    + done.
    + unfold set_broadcast_task. proj. lia.
    + rewrite Hfin, Hsent, Hact. unfold set_broadcast_task. proj.
      rewrite drop_0. cbn [app]. rewrite remove_failed.
      split_and!; [done|done|done|].
      eapply same_session_trans; [|exact Hsame].
      unfold set_broadcast_task. auto with session.
  - destruct Hcase as [-> Hact1].
    rewrite run_broadcast_finished by (cbn; by apply list_lookup_insert_eq).
    unfold set_broadcast_task. proj. rewrite Hsent1, Hact1.
    assert (active_connections (manager s) = []) as ->.
    { by destruct (active_connections (manager s)). }
    cbn. rewrite app_nil_r.
    split_and!; [by apply list_lookup_insert_eq|done|done|].
    eapply same_session_trans; [exact Hsame1|]. auto with session.
Qed.

Lemma broadcast_uninterrupted_witness :
  ws_sent
    (run_broadcast 3 (fun c => negb (Nat.eqb c 1)) 0
       (run [EvConnect 1%nat; EvConnect 2%nat; EvPost [421; -3] 0] initial))
  = [(2%nat, "[421, -3]")]
  /\ active_connections
       (manager
          (run_broadcast 3 (fun c => negb (Nat.eqb c 1)) 0
             (run [EvConnect 1%nat; EvConnect 2%nat; EvPost [421; -3] 0]
                initial)))
     = [2%nat].
Proof.
  destruct (broadcast_uninterrupted (fun c => negb (Nat.eqb c 1)) 0 3
              BufferObject
              (run [EvConnect 1%nat; EvConnect 2%nat; EvPost [421; -3] 0]
                 initial))
    as (_ & Hsent & Hact & _).
  - reflexivity.
  - vm_compute. lia.
  - split; [rewrite Hsent|rewrite Hact]; reflexivity.
Defined.

(** ** What the observers print *)

Definition is_ws_line (l : log_line) : bool :=
  match l with
  | LogWsConnected _ | LogWsDisconnected _ | LogWsBroadcastError _ => true
  | _ => false
  end.

Lemma connect_stdout (ws : WebSocket) (s : Server) :
  exists extra, stdout (connect ws s).2 = stdout s ++ extra
                /\ forallb is_ws_line extra = true.
Proof. unfold connect. mstep. cbn. by eexists [_]. Qed.

Lemma disconnect_stdout (ws : WebSocket) (s : Server) :
  exists extra, stdout (disconnect ws s).2 = stdout s ++ extra
                /\ forallb is_ws_line extra = true.
Proof.
  unfold disconnect. mstep.
  destruct (decide (ws ∈ active_connections (manager s))); mstep; cbn.
  - by eexists [_].
  - exists []. by rewrite app_nil_r.
Qed.

Lemma disconnect_all_stdout (disconnected : list WebSocket) (s : Server) :
  exists extra, stdout (disconnect_all disconnected s).2 = stdout s ++ extra
                /\ forallb is_ws_line extra = true.
Proof.
  revert s. induction disconnected as [|c rest IH]; intros s.
  - exists []. by rewrite app_nil_r.
  - cbn [disconnect_all]. mstep0.
    destruct (disconnect_stdout c s) as (e1 & H1 & Hws1).
    destruct (disconnect_spec c s) as (s1 & E1 & _).
    rewrite E1 in *. cbn [snd] in H1. mstep0.
    destruct (IH s1) as (e2 & H2 & Hws2).
    exists (e1 ++ e2). rewrite H2, H1, app_assoc. split; [done|].
    by rewrite forallb_app, Hws1, Hws2.
Qed.

Lemma broadcast_next_stdout (message : string) (next : nat)
    (disconnected : list WebSocket) (s : Server) :
  exists extra,
    stdout (broadcast_next message next disconnected s).2 = stdout s ++ extra
    /\ forallb is_ws_line extra = true.
Proof.
  unfold broadcast_next. mstep0.
  destruct (active_connections (manager s) !! next).
  { exists []. by rewrite app_nil_r. }
  destruct (disconnect_all_stdout disconnected s) as (extra & H & Hws).
  exists extra. split; [|done].
  by destruct (disconnect_all disconnected s) as [[[]|e] s'].
Qed.

Lemma step_observer_stdout (ev : event) (s : Server) :
  match ev with EvPost _ _ | EvTimer _ _ _ => False | _ => True end ->
  exists extra, stdout (step ev s) = stdout s ++ extra
                /\ forallb is_ws_line extra = true.
Proof.
  destruct ev as [raw now|tid now io_ok|ws|ws|bid send_ok]; try done;
    intros _; cbn [step].
  - apply connect_stdout.
  - apply disconnect_stdout.
  - destruct (broadcast_tasks s !! bid) as [t|].
    2:{ exists []. by rewrite app_nil_r. }
    assert (forall message next disconnected s1 extra1,
              stdout s1 = stdout s ++ extra1 ->
              forallb is_ws_line extra1 = true ->
              exists extra,
                stdout
                  (match broadcast_next message next disconnected s1 with
                   | (Ok t', s') => set_broadcast_task bid t' s'
                   | (Raise e, s') => set_broadcast_task bid (BFailed e) s'
                   end) = stdout s ++ extra
                /\ forallb is_ws_line extra = true) as Hnext.
    { intros message next disconnected s1 extra1 H1 Hws1.
      destruct (broadcast_next_stdout message next disconnected s1)
        as (extra2 & H2 & Hws2).
      exists (extra1 ++ extra2). split; [|by rewrite forallb_app, Hws1, Hws2].
      destruct (broadcast_next message next disconnected s1) as [[t'|e] s'];
        cbn in *; by rewrite H2, H1, app_assoc. }
    destruct t as [data|message next disconnected connection| |e].
    + unfold broadcast_data. mstep0.
      apply (Hnext _ _ _ _ []); [by rewrite app_nil_r|done].
    + rewrite broadcast_data_sending. destruct send_ok.
      * apply (Hnext _ _ _ _ []); [by rewrite app_nil_r|done].
      * by apply (Hnext _ _ _ _ [LogWsBroadcastError WebSocketError]).
    + exists []. by rewrite app_nil_r.
    + exists []. by rewrite app_nil_r.
Qed.

Lemma filter_ws_lines (p : log_line -> bool) (extra : list log_line) :
  (forall l, is_ws_line l = true -> p l = false) ->
  forallb is_ws_line extra = true ->
  List.filter p extra = [].
Proof.
  intros Hp. induction extra as [|l extra IH]; [done|]. cbn.
  intros [Hl Hx]%andb_prop. rewrite (Hp l Hl). by apply IH.
Qed.

(** ** Counters, task handle and the defensive branches *)

Definition is_nodata (l : log_line) : bool :=
  match l with LogNpyNoData => true | _ => false end.

Lemma receive_co2_raw_data_nodata (raw : list Z) (now : datetime) (s : Server) :
  List.filter is_nodata (stdout (receive_co2_raw_data raw now s).2)
  = List.filter is_nodata (stdout s).
Proof.
  destruct raw as [|x raw]; [done|].
  receive_cases s; proj; rewrite ?List.filter_app; cbn;
    by rewrite ?app_nil_r.
Qed.

Record ledger_inv (s : Server) : Prop := {
  inv_points :
    is_receiving s = true ->
    total_points_received s = Z.of_nat (length (data_stream_buffer s));
  inv_batches :
    is_receiving s = true ->
    1 <= total_batches_received s <= total_points_received s;
  inv_handle :
    is_receiving s = true ->
    exists tid t,
      timeout_task s = Some tid /\ S tid = length (tasks s)
      /\ tasks s !! tid = Some t /\ live t = true;
  inv_nodata : List.filter is_nodata (stdout s) = [];
  inv_saved_nonempty : Forall (fun e => e.1.2 <> []) (np_save_log s)
}.

Lemma ledger_inv_initial : ledger_inv initial.
Proof. by split. Qed.

Lemma ledger_inv_step (ev : event) (s : Server) :
  session_inv s -> ledger_inv s -> ledger_inv (step ev s).
Proof.
  intros Hsess [Hp Hb Hh Hn Hs].
  destruct ev as [raw now|tid now io_ok|ws|ws|bid send_ok].
  - destruct raw as [|x raw]; [by split|].
    destruct (receive_co2_raw_data_log (x :: raw) now s ltac:(done))
      as (_ & _ & Hhandle).
    pose proof (receive_co2_raw_data_nodata (x :: raw) now s) as Hnod.
    destruct (receive_co2_raw_data_accepts (x :: raw) now s ltac:(done))
      as (s' & E & Hr' & Hb' & _ & Hn' & Hp' & Hts & Hlog & _).
    cbn [step]. rewrite E in *. cbn [snd] in *.
    split; rewrite ?Hb', ?Hn', ?Hp', ?Hts, ?Hlog, ?Hhandle, ?Hnod;
      try done.
    + intros _. destruct (is_receiving s) eqn:Hr.
      * rewrite length_app, Hp by done. cbn [length]. lia.
      * cbn [length]. lia.
    + intros _. destruct (is_receiving s) eqn:Hr.
      * specialize (Hb eq_refl). cbn [length]. lia.
      * cbn [length]. lia.
    + intros _. destruct (is_receiving s) eqn:Hr; [by apply Hh|].
      exists (length (tasks s)), Created.
      split_and!; [done|by rewrite length_app, Nat.add_1_r| |done].
      rewrite lookup_app_r by done. by rewrite Nat.sub_diag.
  - cbn [step].
    destruct (check_stream_timeout_cases tid now io_ok s)
      as [->|[(t0 & Hlive & Ht & ->)|(t & Ht & Hl & Hlt & ->)]]; [by split| |].
    + split; try done. intros Hr. change (is_receiving s = true) in Hr.
      destruct (Hh Hr) as (tid' & t' & Htask & Hlen & Hlook & Hl').
      unfold loop_head. rewrite Hr. cbn.
      destruct (decide (tid = tid')) as [->|Hne].
      * exists tid', Sleeping. rewrite length_insert.
        split_and!; [done|done| |done].
        apply list_lookup_insert_eq. by eapply lookup_lt_Some.
      * exists tid', t'. rewrite length_insert.
        split_and!; [done|done| |done].
        by rewrite list_lookup_insert_ne.
    + destruct Hsess as [Hne Htime].
      assert (data_stream_buffer s <> []) as Hbuf.
      { apply Hne, Htime. by eexists. }
      split; try done.
      * cbn. rewrite List.filter_app, Hn. cbn. unfold saved_line.
        destruct (data_stream_buffer s); [done|].
        destruct (forallb _ _); [by destruct io_ok|done].
      * cbn. apply Forall_app. split; [done|]. unfold saved_entry.
        destruct (data_stream_buffer s); [done|].
        destruct (forallb _ _); repeat constructor; done.
  - pose proof (step_observer (EvConnect ws) s I) as Hsame.
    destruct (step_observer_stdout (EvConnect ws) s I) as (extra & Ho & Hws).
    split; rewrite ?(same_receiving _ _ Hsame), ?(same_points _ _ Hsame),
             ?(same_batches _ _ Hsame), ?(same_buffer _ _ Hsame),
             ?(same_timeout_task _ _ Hsame), ?(same_tasks _ _ Hsame),
             ?(same_saves _ _ Hsame); try done.
    rewrite Ho, List.filter_app, Hn, (filter_ws_lines is_nodata extra);
      [done|by intros []|done].
  - pose proof (step_observer (EvDisconnect ws) s I) as Hsame.
    destruct (step_observer_stdout (EvDisconnect ws) s I)
      as (extra & Ho & Hws).
    split; rewrite ?(same_receiving _ _ Hsame), ?(same_points _ _ Hsame),
             ?(same_batches _ _ Hsame), ?(same_buffer _ _ Hsame),
             ?(same_timeout_task _ _ Hsame), ?(same_tasks _ _ Hsame),
             ?(same_saves _ _ Hsame); try done.
    rewrite Ho, List.filter_app, Hn, (filter_ws_lines is_nodata extra);
      [done|by intros []|done].
  - pose proof (step_observer (EvBroadcast bid send_ok) s I) as Hsame.
    destruct (step_observer_stdout (EvBroadcast bid send_ok) s I)
      as (extra & Ho & Hws).
    split; rewrite ?(same_receiving _ _ Hsame), ?(same_points _ _ Hsame),
             ?(same_batches _ _ Hsame), ?(same_buffer _ _ Hsame),
             ?(same_timeout_task _ _ Hsame), ?(same_tasks _ _ Hsame),
             ?(same_saves _ _ Hsame); try done.
    rewrite Ho, List.filter_app, Hn, (filter_ws_lines is_nodata extra);
      [done|by intros []|done].
Qed.

Lemma reachable_ledger_inv (s : Server) : reachable s -> ledger_inv s.
Proof.
  induction 1 as [|ev s Hreach IH]; [apply ledger_inv_initial|].
  apply ledger_inv_step; [by apply reachable_session_inv|done].
Qed.

(** X5. While a session is receiving, [total_points_received] is the
    length of the buffer, and [total_batches_received] is at least one and
    at most the number of points: the counters of a session always agree
    with what the buffer holds. *)
Theorem counters_match_buffer (s : Server) :
  reachable s ->
  is_receiving s = true ->
  total_points_received s = Z.of_nat (length (data_stream_buffer s))
  /\ 1 <= total_batches_received s <= total_points_received s.
Proof.
  intros Hreach Hr. destruct (reachable_ledger_inv s Hreach) as [Hp Hb _ _ _].
  split; [by apply Hp|by apply Hb].
Qed.

Lemma counters_match_buffer_witness :
  total_points_received (run two_sessions initial)
  = Z.of_nat (length (data_stream_buffer (run two_sessions initial)))
  /\ 1 <= total_batches_received (run two_sessions initial)
       <= total_points_received (run two_sessions initial).
Proof.
  apply (counters_match_buffer (run two_sessions initial)).
  - apply reachable_run, reachable_initial.
  - reflexivity.
Defined.

Lemma filter_live_unique (l : list task_state) (i j : nat)
    (t t' : task_state) :
  length (List.filter live l) = 1%nat ->
  l !! i = Some t -> live t = true ->
  l !! j = Some t' -> live t' = true ->
  i = j.
Proof.
  revert i j. induction l as [|x l IH]; intros i j Hlen Hi Ht Hj Ht'; [done|].
  cbn in Hlen. destruct (live x) eqn:Hx.
  - cbn in Hlen. assert (length (List.filter live l) = 0%nat) as H0 by lia.
    destruct i as [|i], j as [|j]; [done| | |].
    + cbn in Hj. pose proof (filter_live_lookup _ _ _ Hj Ht'). lia.
    + cbn in Hi. pose proof (filter_live_lookup _ _ _ Hi Ht). lia.
    + cbn in Hi. pose proof (filter_live_lookup _ _ _ Hi Ht). lia.
  - destruct i as [|i], j as [|j]; cbn in *; simplify_eq; try congruence.
    f_equal. by eapply IH.
Qed.

(** X6. While a session is receiving, [timeout_task] names the task that
    was created last, that task is still running (created or asleep), and
    every other timeout task has ended. *)
Theorem timeout_task_is_the_armed_monitor (s : Server) :
  reachable s ->
  is_receiving s = true ->
  exists tid t,
    timeout_task s = Some tid
    /\ S tid = length (tasks s)
    /\ tasks s !! tid = Some t /\ live t = true
    /\ forall tid' t', tasks s !! tid' = Some t' -> live t' = true ->
                       tid' = tid.
Proof.
  intros Hreach Hr.
  destruct (reachable_ledger_inv s Hreach) as [_ _ Hh _ _].
  destruct (Hh Hr) as (tid & t & Htask & Hlen & Hlook & Hlive).
  exists tid, t. split_and!; try done.
  intros tid' t' Hlook' Hlive'.
  pose proof (inv_armed _ (reachable_monitor_inv s Hreach)) as Harmed.
  rewrite Hr in Harmed. unfold armed in Harmed.
  by eapply filter_live_unique.
Qed.

Lemma timeout_task_is_the_armed_monitor_witness :
  exists tid t,
    timeout_task (run two_sessions initial) = Some tid
    /\ S tid = length (tasks (run two_sessions initial))
    /\ tasks (run two_sessions initial) !! tid = Some t /\ live t = true
    /\ forall tid' t',
         tasks (run two_sessions initial) !! tid' = Some t' ->
         live t' = true -> tid' = tid.
Proof.
  apply (timeout_task_is_the_armed_monitor (run two_sessions initial)).
  - apply reachable_run, reachable_initial.
  - reflexivity.
Defined.

Lemma filter_is_nodata_nil (o : list log_line) :
  List.filter is_nodata o = [] -> LogNpyNoData ∉ o.
Proof.
  induction o as [|l o IH]; intros Hf Hin; [by apply elem_of_nil in Hin|].
  cbn in Hf. apply elem_of_cons in Hin as [<-|Hin]; [done|].
  destruct (is_nodata l); [done|]. by apply IH.
Qed.

(** X7. The defensive branches of the monitor and of the persister are
    never taken: in every reachable state the line "[NPY] No data to save."
    has never been printed, every array handed to [np.save] was non-empty,
    and a timeout task that is still running finds [last_data_time] set
    (the [continue] on a missing timestamp does not happen). *)
Theorem defensive_branches_dead (s : Server) :
  reachable s ->
  (LogNpyNoData ∉ stdout s)
  /\ Forall (fun e => e.1.2 <> []) (np_save_log s)
  /\ (forall tid t, tasks s !! tid = Some t -> live t = true ->
                    is_Some (last_data_time s)).
Proof.
  intros Hreach.
  destruct (reachable_ledger_inv s Hreach) as [_ _ _ Hn Hs].
  split_and!; [by apply filter_is_nodata_nil|done|].
  intros tid t Hlook Hlive.
  pose proof (live_task_receiving _ _ _ (reachable_monitor_inv s Hreach)
                Hlook Hlive) as Hr.
  by apply (reachable_session_inv s Hreach).
Qed.

Lemma defensive_branches_dead_witness :
  (LogNpyNoData ∉ stdout (run two_sessions initial))
  /\ Forall (fun e => e.1.2 <> []) (np_save_log (run two_sessions initial)).
Proof.
  destruct (defensive_branches_dead (run two_sessions initial))
    as (Hn & Hs & _).
  - apply reachable_run, reachable_initial.
  - split; [exact Hn|exact Hs].
Defined.

(** ** The threshold and the saved array *)

(** X8. The comparison with the threshold is strict: a monitor that wakes
    up no more than five seconds after the last batch (five seconds exactly
    included, a clock behind the last batch included) changes nothing, and
    one microsecond later it closes the session. *)
Theorem threshold_is_strict (tid : nat) (now t : datetime) (io_ok : bool)
    (s : Server) :
  tasks s !! tid = Some Sleeping ->
  is_receiving s = true ->
  last_data_time s = Some t ->
  (now <= t + 5000000 -> check_stream_timeout tid now io_ok s = s)
  /\ check_stream_timeout tid (t + 5000000) io_ok s = s
  /\ is_receiving (check_stream_timeout tid (t + 5000001) io_ok s) = false
  /\ data_stream_buffer (check_stream_timeout tid (t + 5000001) io_ok s) = [].
Proof.
  intros Ht Hr Hl.
  assert (forall now', now' <= t + 5000000 ->
                       check_stream_timeout tid now' io_ok s = s) as Hquiet.
  { intros now' Hle. rewrite check_stream_timeout_quiet; [|done|].
    - unfold loop_head. rewrite Hr. by apply set_task_same.
    - intros t' Ht'. rewrite Hl in Ht'. simplify_eq.
      unfold STREAM_TIMEOUT_SEC, usec. lia. }
  split_and!; [apply Hquiet|apply Hquiet; lia| |].
  - rewrite (check_stream_timeout_fires tid _ t); [done|done|done|].
    unfold STREAM_TIMEOUT_SEC, usec. lia.
  - rewrite (check_stream_timeout_fires tid _ t); [done|done|done|].
    unfold STREAM_TIMEOUT_SEC, usec. lia.
Qed.

Lemma threshold_is_strict_witness :
  check_stream_timeout 0 5000000 true
    (run [EvPost [1; 2; 3] 0; EvTimer 0 0 true] initial)
  = run [EvPost [1; 2; 3] 0; EvTimer 0 0 true] initial
  /\ is_receiving
       (check_stream_timeout 0 5000001 true
          (run [EvPost [1; 2; 3] 0; EvTimer 0 0 true] initial)) = false.
Proof.
  destruct (threshold_is_strict 0 0 0 true
              (run [EvPost [1; 2; 3] 0; EvTimer 0 0 true] initial))
    as (_ & Hat & Hafter & _).
  - reflexivity.
  - reflexivity.
  - reflexivity.
  - split; [exact Hat|exact Hafter].
Defined.

(** The time of the last batch of a trace. *)
Fixpoint last_batch_time (last : datetime) (evs : list event) : datetime :=
  match evs with
  | [] => last
  | EvPost _ now :: r => last_batch_time now r
  | _ :: r => last_batch_time last r
  end.

Lemma run_timely_full (evs : list event) (last : datetime) (tid : nat)
    (s : Server) :
  is_receiving s = true -> last_data_time s = Some last ->
  tasks s !! tid = Some Sleeping -> timely last evs ->
  is_receiving (run evs s) = true
  /\ data_stream_buffer (run evs s) = data_stream_buffer s ++ batches evs
  /\ last_data_time (run evs s) = Some (last_batch_time last evs)
  /\ tasks (run evs s) !! tid = Some Sleeping
  /\ np_save_log (run evs s) = np_save_log s.
Proof.
  revert last s.
  induction evs as [|ev evs IH]; intros last s Hr Hl Htid Ht.
  { cbn. by rewrite app_nil_r. }
  assert (forall s', same_session s s' -> timely last evs ->
            is_receiving (run evs s') = true
            /\ data_stream_buffer (run evs s')
               = data_stream_buffer s ++ batches evs
            /\ last_data_time (run evs s') = Some (last_batch_time last evs)
            /\ tasks (run evs s') !! tid = Some Sleeping
            /\ np_save_log (run evs s') = np_save_log s) as Hsame.
  { intros s' Hs Ht'.
    rewrite <- (same_buffer _ _ Hs), <- (same_saves _ _ Hs).
    apply (IH last); [by rewrite (same_receiving _ _ Hs)| | |done].
    - by rewrite (same_time _ _ Hs).
    - by rewrite (same_tasks _ _ Hs). }
  destruct ev as [raw now|tid' now io_ok|ws|ws|bid send_ok];
    try (apply Hsame; [by apply step_observer|exact Ht]).
  - cbn in Ht. destruct Ht as (Hraw & _ & Ht).
    cbn [run foldl step batches last_batch_time].
    destruct (receive_co2_raw_data_accepts raw now s Hraw)
      as (s' & -> & Hr' & Hb' & Hl' & _ & _ & Hts & Hlog & _).
    cbn [snd]. rewrite Hr in Hb', Hts.
    change (foldl (fun s ev => step ev s) s' evs) with (run evs s').
    destruct (IH now s' Hr' Hl' ltac:(by rewrite Hts) Ht)
      as (-> & -> & -> & -> & ->).
    by rewrite Hb', Hlog, app_assoc.
  - cbn in Ht. destruct Ht as [Hle Ht].
    cbn [run foldl step batches last_batch_time].
    change (foldl (fun s ev => step ev s) ?x evs) with (run evs x).
    destruct (check_stream_timeout_cases tid' now io_ok s)
      as [->|[(t0 & _ & Hlook & ->)|(t & _ & Hl' & Hlt & _)]].
    + by apply (IH last).
    + change (data_stream_buffer s)
        with (data_stream_buffer (set_task tid' (loop_head s) s)).
      change (np_save_log s)
        with (np_save_log (set_task tid' (loop_head s) s)).
      apply (IH last); [done|done| |done].
      unfold loop_head. rewrite Hr. cbn.
      destruct (decide (tid' = tid)) as [->|Hne].
      * apply list_lookup_insert_eq. by eapply lookup_lt_Some.
      * by rewrite list_lookup_insert_ne.
    + rewrite Hl in Hl'. simplify_eq. lia.
Qed.

(** X9. From Idle to the file: a first batch opens a session and its
    monitor goes to sleep; batches keep coming in time; then the monitor
    wakes up more than five seconds after the last of them. Exactly one call
    of [np.save] is added, and its array is the first batch followed by all
    the later batches of the session, in arrival order. *)
Theorem saved_array_is_the_session (s : Server) (b0 : list Z)
    (t0 t1 w : datetime) (ok1 io_ok : bool) (evs : list event) :
  is_receiving s = false ->
  b0 <> [] ->
  timely t0 evs ->
  Forall int32 (b0 ++ batches evs) ->
  STREAM_TIMEOUT_SEC * usec < w - last_batch_time t0 evs ->
  np_save_log
    (run (EvPost b0 t0 :: EvTimer (length (tasks s)) t1 ok1
          :: evs ++ [EvTimer (length (tasks s)) w io_ok]) s)
  = np_save_log s ++ [(npy_filename w, b0 ++ batches evs, io_ok)]
  /\ is_receiving
       (run (EvPost b0 t0 :: EvTimer (length (tasks s)) t1 ok1
             :: evs ++ [EvTimer (length (tasks s)) w io_ok]) s) = false
  /\ data_stream_buffer
       (run (EvPost b0 t0 :: EvTimer (length (tasks s)) t1 ok1
             :: evs ++ [EvTimer (length (tasks s)) w io_ok]) s) = [].
Proof.
  intros Hidle Hb0 Ht Hint Hlate.
  change (EvPost b0 t0 :: EvTimer (length (tasks s)) t1 ok1
          :: evs ++ [EvTimer (length (tasks s)) w io_ok])
    with ([EvPost b0 t0; EvTimer (length (tasks s)) t1 ok1]
          ++ evs ++ [EvTimer (length (tasks s)) w io_ok]).
  rewrite !run_app.
  destruct (receive_co2_raw_data_accepts b0 t0 s Hb0)
    as (s1 & E1 & Hr1 & Hb1 & Hl1 & _ & _ & Hts1 & Hlog1 & _).
  rewrite Hidle in Hb1, Hts1.
  assert (run [EvPost b0 t0; EvTimer (length (tasks s)) t1 ok1] s
          = set_task (length (tasks s)) Sleeping s1) as ->.
  { cbn [run foldl step]. rewrite E1. cbn [snd].
    rewrite check_stream_timeout_created.
    - unfold loop_head. by rewrite Hr1.
    - rewrite Hts1, lookup_app_r by done. by rewrite Nat.sub_diag. }
  set (s2 := set_task (length (tasks s)) Sleeping s1).
  assert (tasks s2 !! length (tasks s) = Some Sleeping) as Htask.
  { cbn. apply list_lookup_insert_eq. rewrite Hts1, length_app. cbn. lia. }
  destruct (run_timely_full evs t0 (length (tasks s)) s2 Hr1 Hl1 Htask Ht)
    as (Hr3 & Hb3 & Hl3 & Htask3 & Hlog3).
  cbn [run foldl step].
  rewrite (check_stream_timeout_fires _ w (last_batch_time t0 evs));
    [|done|done|done].
  change (data_stream_buffer s2) with (data_stream_buffer s1) in Hb3.
  change (np_save_log s2) with (np_save_log s1) in Hlog3.
  cbn. unfold run in *.
  rewrite Hlog3, Hlog1, Hb3, Hb1. split_and!; [|done|done].
  rewrite saved_entry_int32; [done| |done].
  intros Happ. apply app_eq_nil in Happ as [? _]. done.
Qed.

Lemma saved_array_is_the_session_witness :
  np_save_log
    (run (EvPost [1; 2; 3] 0 :: EvTimer (length (tasks initial)) 0 true
          :: [EvPost [4; 5] 2000000; EvTimer 0 3000000 true]
             ++ [EvTimer (length (tasks initial)) 8000000 true]) initial)
  = np_save_log initial
    ++ [(npy_filename 8000000,
         [1; 2; 3] ++ batches [EvPost [4; 5] 2000000; EvTimer 0 3000000 true],
         true)].
Proof.
  apply (saved_array_is_the_session initial [1; 2; 3] 0 0 8000000 true true
           [EvPost [4; 5] 2000000; EvTimer 0 3000000 true]).
  - reflexivity.
  - discriminate.
  - cbn. unfold STREAM_TIMEOUT_SEC, usec. repeat split; (discriminate || lia).
  - cbn. repeat constructor; discriminate.
  - cbn. unfold STREAM_TIMEOUT_SEC, usec. lia.
Defined.

(** ** One file per session *)

(** Every value posted by the trace is a 32-bit integer. *)
Fixpoint int32_posts (evs : list event) : Prop :=
  match evs with
  | [] => True
  | EvPost raw _ :: r => Forall int32 raw /\ int32_posts r
  | _ :: r => int32_posts r
  end.

Lemma sessions_closed_step (ev : event) (s : Server) :
  session_inv s ->
  Forall int32 (data_stream_buffer s) ->
  match ev with EvPost raw _ => Forall int32 raw | _ => True end ->
  length (np_save_log s) = sessions_closed s ->
  Forall int32 (data_stream_buffer (step ev s))
  /\ length (np_save_log (step ev s)) = sessions_closed (step ev s).
Proof.
  intros [Hne Htime] Hint Hev Hlen.
  destruct ev as [raw now|tid now io_ok|ws|ws|bid send_ok].
  - destruct raw as [|x raw]; [done|].
    destruct (receive_co2_raw_data_log (x :: raw) now s ltac:(done))
      as (_ & Hcl & _).
    destruct (receive_co2_raw_data_accepts (x :: raw) now s ltac:(done))
      as (s' & E & _ & Hb & _ & _ & _ & _ & Hlog & _).
    cbn [step]. rewrite E in *. cbn [snd] in *.
    rewrite Hb, Hlog, Hcl. split; [|done].
    destruct (is_receiving s); [by apply Forall_app|done].
  - cbn [step].
    destruct (check_stream_timeout_cases tid now io_ok s)
      as [->|[(t0 & _ & _ & ->)|(t & _ & Hl & _ & ->)]]; [done|done|].
    destruct (closed_log now t io_ok s) as (_ & Hcl & _).
    split; [by constructor|].
    change (length (np_save_log (closed now io_ok t s))
            = sessions_closed (closed now io_ok t s)).
    rewrite Hcl. cbn. rewrite length_app, saved_entry_int32; [cbn; lia| |done].
    apply Hne, Htime. by eexists.
  - pose proof (step_observer (EvConnect ws) s I) as Hs.
    by rewrite (same_buffer _ _ Hs), (same_saves _ _ Hs), (same_closed _ _ Hs).
  - pose proof (step_observer (EvDisconnect ws) s I) as Hs.
    by rewrite (same_buffer _ _ Hs), (same_saves _ _ Hs), (same_closed _ _ Hs).
  - pose proof (step_observer (EvBroadcast bid send_ok) s I) as Hs.
    by rewrite (same_buffer _ _ Hs), (same_saves _ _ Hs), (same_closed _ _ Hs).
Qed.

(** X10. When every posted value is a 32-bit integer, [np.save] has been
    called exactly once for each session that has been closed, whatever the
    interleaving of requests, monitors and observers and whether the writes
    succeeded or not: no closed session is skipped and none is saved twice. *)
Theorem one_save_per_closed_session (evs : list event) :
  int32_posts evs ->
  length (np_save_log (run evs initial)) = sessions_closed (run evs initial).
Proof.
  intros Hev.
  assert (forall s,
            reachable s -> Forall int32 (data_stream_buffer s) ->
            length (np_save_log s) = sessions_closed s ->
            length (np_save_log (run evs s)) = sessions_closed (run evs s))
    as Hgen.
  { induction evs as [|ev evs IH]; intros s Hreach Hint Hlen; [done|].
    cbn [run foldl].
    change (foldl (fun s ev => step ev s) ?x evs) with (run evs x).
    destruct (sessions_closed_step ev s (reachable_session_inv s Hreach)
                Hint) as [Hint' Hlen']; [by destruct ev; cbn in Hev; try apply Hev|done|].
    apply IH; [by destruct ev; cbn in Hev; try apply Hev| |done|done].
    by constructor. }
  apply Hgen; [apply reachable_initial|by constructor|done].
Qed.

Lemma one_save_per_closed_session_witness :
  length (np_save_log (run two_sessions initial))
  = sessions_closed (run two_sessions initial).
Proof.
  apply (one_save_per_closed_session two_sessions).
  cbn. repeat split; repeat constructor; discriminate.
Defined.

(** ** The statistics *)

Lemma foldl_min_spec (x : Z) (r : list Z) :
  foldl Z.min x r ∈ x :: r /\ Forall (fun y => foldl Z.min x r <= y) (x :: r).
Proof.
  revert x. induction r as [|y r IH]; intros x.
  - cbn. split; [by left|]. repeat constructor. lia.
  - cbn [foldl]. destruct (IH (Z.min x y)) as [Hin Hall].
    apply Forall_cons in Hall as [Hxy Hall]. split.
    + apply elem_of_cons in Hin as [Hin|Hin]; [|by do 2 right].
      rewrite Hin. destruct (Z.min_spec x y) as [[_ ->]|[_ ->]];
        [by left|right; by left].
    + repeat constructor; [lia|lia|done].
Qed.

Lemma foldl_max_spec (x : Z) (r : list Z) :
  foldl Z.max x r ∈ x :: r /\ Forall (fun y => y <= foldl Z.max x r) (x :: r).
Proof.
  revert x. induction r as [|y r IH]; intros x.
  - cbn. split; [by left|]. repeat constructor. lia.
  - cbn [foldl]. destruct (IH (Z.max x y)) as [Hin Hall].
    apply Forall_cons in Hall as [Hxy Hall]. split.
    + apply elem_of_cons in Hin as [Hin|Hin]; [|by do 2 right].
      rewrite Hin. destruct (Z.max_spec x y) as [[_ ->]|[_ ->]];
        [right; by left|by left].
    + repeat constructor; [lia|lia|done].
Qed.

Lemma np_sum_bounds (lo hi : Z) (a : list Z) :
  Forall (fun y => lo <= y <= hi) a ->
  lo * Z.of_nat (length a) <= np_sum a <= hi * Z.of_nat (length a).
Proof.
  induction 1 as [|y a Hy _ IH]; [cbn; lia|].
  cbn [np_sum foldr length]. fold (np_sum a). lia.
Qed.

Lemma np_mean_bounds (lo hi : Z) (a : list Z) :
  a <> [] ->
  Forall (fun y => lo <= y <= hi) a ->
  Qle (inject_Z lo) (np_mean a) /\ Qle (np_mean a) (inject_Z hi).
Proof.
  intros Hne Hall. pose proof (np_sum_bounds lo hi a Hall) as Hsum.
  assert (0 < Z.of_nat (length a)) as Hpos by (destruct a; [done|cbn; lia]).
  unfold np_mean. split.
  - apply Qle_shift_div_l.
    + change 0%Q with (inject_Z 0). by rewrite <- Zlt_Qlt.
    + rewrite <- inject_Z_mult, <- Zle_Qle. lia.
  - apply Qle_shift_div_r.
    + change 0%Q with (inject_Z 0). by rewrite <- Zlt_Qlt.
    + rewrite <- inject_Z_mult, <- Zle_Qle. lia.
Qed.

(** X11. Whenever the stats endpoint answers with statistics, the number
    of points is the length of the buffer, the minimum and the maximum are
    readings of the buffer that bound every reading, and the mean lies
    between them. *)
Theorem stats_are_those_of_the_buffer (s : Server) (r : stats) :
  get_stats s = Ok (Stats r) ->
  total_points r = length (data_stream_buffer s)
  /\ total_batches r = total_batches_received s
  /\ stats_min r ∈ data_stream_buffer s
  /\ stats_max r ∈ data_stream_buffer s
  /\ Forall (fun y => stats_min r <= y <= stats_max r) (data_stream_buffer s)
  /\ Qle (inject_Z (stats_min r)) (average r)
  /\ Qle (average r) (inject_Z (stats_max r)).
Proof.
  unfold get_stats, np_array_int32.
  destruct (data_stream_buffer s) as [|x b] eqn:Hb; [done|].
  destruct (forallb is_int32 (x :: b)); [|done].
  cbn [np_min np_max]. intros [= <-]. cbn.
  destruct (foldl_min_spec x b) as [Hmin_in Hmin].
  destruct (foldl_max_spec x b) as [Hmax_in Hmax].
  assert (Forall (fun y => foldl Z.min x b <= y <= foldl Z.max x b) (x :: b))
    as Hall.
  { apply Forall_forall. intros y Hy.
    rewrite Forall_forall in Hmin. rewrite Forall_forall in Hmax.
    split; [by apply Hmin|by apply Hmax]. }
  destruct (np_mean_bounds _ _ (x :: b) ltac:(done) Hall) as [Hlo Hhi].
  split_and!; [done|done|done|done|done|exact Hlo|exact Hhi].
Qed.

Lemma stats_are_those_of_the_buffer_witness :
  total_points
    {| stats_status := Active; total_points := 3; total_batches := 1;
       average := np_mean [1; 2; 3]; stats_min := 1; stats_max := 3;
       std_squared := np_var [1; 2; 3]; last_update := Some 0 |}
  = length
      (data_stream_buffer
         (run [EvPost [1; 2; 3] 0; EvTimer 0 0 true] initial))
  /\ Qle (inject_Z 1) (np_mean [1; 2; 3])
  /\ Qle (np_mean [1; 2; 3]) (inject_Z 3).
Proof.
  destruct (stats_are_those_of_the_buffer
              (run [EvPost [1; 2; 3] 0; EvTimer 0 0 true] initial)
              {| stats_status := Active; total_points := 3;
                 total_batches := 1; average := np_mean [1; 2; 3];
                 stats_min := 1; stats_max := 3;
                 std_squared := np_var [1; 2; 3]; last_update := Some 0 |})
    as (Hn & _ & _ & _ & _ & Hlo & Hhi).
  - rewrite (get_stats_of_buffer _ 1 [2; 3]).
    + reflexivity.
    + reflexivity.
    + repeat constructor; discriminate.
  - split_and!; [exact Hn|exact Hlo|exact Hhi].
Defined.

(** ** The extraction of the values from the body of a request *)

(** The decoded body is taken to be ASCII text, as the device sends it: a
    [str] is a list of ASCII characters. Whitespace is what [str.isspace]
    accepts among them: tab to carriage return, the four separators 28 to 31
    and the space. *)
Definition str := list ascii.

Definition is_space (c : ascii) : bool :=
  let n := nat_of_ascii c in
  ((9 <=? n)%nat && (n <=? 13)%nat) || ((28 <=? n)%nat && (n <=? 32)%nat).

Fixpoint lstrip (s : str) : str :=
  match s with
  | [] => []
  | c :: r => if is_space c then lstrip r else s
  end.

Definition rstrip (s : str) : str := reverse (lstrip (reverse s)).

(** [str.strip()] *)
Definition strip (s : str) : str := rstrip (lstrip s).

(** [str.split(sep)]: the pieces between the separators, at least one. *)
Fixpoint split_on (sep : ascii) (s : str) : list str :=
  match s with
  | [] => [[]]
  | c :: r =>
      if decide (c = sep) then [] :: split_on sep r
      else match split_on sep r with
           | p :: ps => (c :: p) :: ps
           | [] => [[c]]
           end
  end.

(** [str.split()]: the words between runs of whitespace. *)
Fixpoint split_ws (s : str) : list str :=
  match s with
  | [] => []
  | c :: r =>
      if is_space c then split_ws r
      else match r with
           | [] => [[c]]
           | d :: _ =>
               if is_space d then [c] :: split_ws r
               else match split_ws r with
                    | p :: ps => (c :: p) :: ps
                    | [] => [[c]]
                    end
           end
  end.

Definition newline : ascii := "010"%char.

(** [line.startswith('Z') or line.startswith('z')] *)
Definition starts_with_marker (line : str) : bool :=
  match line with
  | c :: _ => bool_decide (c = "Z"%char) || bool_decide (c = "z"%char)
  | [] => false
  end.

Section Extraction.

(** [int(parts[1])]: the value, or [None] for a [ValueError]. *)
Variable py_int : str -> option Z.

(** The loop over the lines: the values extracted, and the lines whose
    second word [int] refused, which the source prints as warnings. *)
Fixpoint extract_lines (lines : list str) : list Z * list str :=
  match lines with
  | [] => ([], [])
  | line :: rest =>
      let line := strip line in
      let (values, warned) := extract_lines rest in
      if negb (starts_with_marker line) then (values, warned)
      else match split_ws line with
           | _ :: token :: _ =>
               match py_int token with
               | Some value => (value :: values, warned)
               | None => (values, line :: warned)
               end
           | _ => (values, warned)
           end
  end.

Definition extract (body_str : str) : list Z * list str :=
  extract_lines (split_on newline (strip body_str)).

(** The whole handler of [/co2_data], from the decoded body on. *)
Definition co2_data (body_str : str) (now : datetime) : M response :=
  receive_co2_raw_data (extract body_str).1 now.

Lemma lstrip_subseteq (s : str) (c : ascii) : c ∈ lstrip s -> c ∈ s.
Proof.
  induction s as [|d s IH]; [done|]. cbn.
  destruct (is_space d); [|done]. intros ?. right. by apply IH.
Qed.

Lemma strip_subseteq (s : str) (c : ascii) : c ∈ strip s -> c ∈ s.
Proof.
  unfold strip, rstrip. intros Hc. rewrite elem_of_reverse in Hc.
  apply lstrip_subseteq in Hc. rewrite elem_of_reverse in Hc.
  by apply lstrip_subseteq.
Qed.

Lemma split_on_subseteq (sep : ascii) (s p : str) (c : ascii) :
  p ∈ split_on sep s -> c ∈ p -> c ∈ s.
Proof.
  revert p. induction s as [|d s IH]; intros p Hp Hc.
  - cbn in Hp. apply list_elem_of_singleton in Hp as ->.
    by apply elem_of_nil in Hc.
  - cbn in Hp. destruct (decide (d = sep)).
    + apply elem_of_cons in Hp as [->|Hp]; [by apply elem_of_nil in Hc|].
      right. by eapply IH.
    + destruct (split_on sep s) as [|q qs] eqn:Hq.
      * apply list_elem_of_singleton in Hp as ->.
        apply list_elem_of_singleton in Hc as ->. by left.
      * apply elem_of_cons in Hp as [->|Hp].
        -- apply elem_of_cons in Hc as [->|Hc]; [by left|].
           right. apply (IH q); [by left|done].
        -- right. apply (IH p); [by right|done].
Qed.

Lemma extract_lines_no_marker (lines : list str) :
  Forall (fun line => starts_with_marker (strip line) = false) lines ->
  extract_lines lines = ([], []).
Proof.
  induction 1 as [|line rest Hline _ IH]; [done|].
  cbn [extract_lines]. by rewrite IH, Hline.
Qed.

(** X12. A body that contains neither [Z] nor [z] yields no value and no
    warning; the request is then refused with the 400 "No valid data" and
    the state of the server is unchanged. *)
Theorem body_without_marker_rejected (body_str : str) (now : datetime)
    (s : Server) :
  Forall (fun c => c <> "Z"%char /\ c <> "z"%char) body_str ->
  extract body_str = ([], [])
  /\ co2_data body_str now s
     = (Raise (HTTPException 400 "No valid data"), s).
Proof.
  intros Hbody.
  assert (extract body_str = ([], [])) as Hex.
  { unfold extract. apply extract_lines_no_marker.
    apply Forall_forall. intros line Hline.
    destruct (strip line) as [|c r] eqn:Hs; [done|].
    assert (c ∈ body_str) as Hc.
    { apply strip_subseteq. eapply split_on_subseteq; [exact Hline|].
      apply strip_subseteq. rewrite Hs. by left. }
    rewrite Forall_forall in Hbody. destruct (Hbody c Hc) as [HZ Hz].
    cbn. by rewrite !bool_decide_eq_false_2. }
  split; [done|]. unfold co2_data. by rewrite Hex.
Qed.

End Extraction.

Lemma body_without_marker_rejected_witness :
  co2_data (fun _ => None) ["h"; "i"; newline; "4"; "2"]%char 5 initial
  = (Raise (HTTPException 400 "No valid data"), initial).
Proof.
  apply (body_without_marker_rejected (fun _ => None)
           ["h"; "i"; newline; "4"; "2"]%char 5 initial).
  repeat constructor; discriminate.
Defined.

(** The lines the device sends: the marker, a space and the numeral. *)
Definition format_line (token : str) : str := ("Z" :: " " :: token)%char.

(** ["\n".join(lines)] *)
Fixpoint join_lines (lines : list str) : str :=
  match lines with
  | [] => []
  | [line] => line
  | line :: rest => line ++ newline :: join_lines rest
  end.

(** The decimal numerals without sign, which [int] reads as they stand. *)
Definition decimal_digits (s : str) : option Z :=
  match s with
  | [] => None
  | _ :: _ =>
      foldl (fun acc c =>
               match acc with
               | None => None
               | Some n =>
                   let d := Z.of_nat (nat_of_ascii c) - 48 in
                   if (0 <=? d) && (d <=? 9) then Some (10 * n + d) else None
               end) (Some 0) s
  end.

Lemma lstrip_nonspace_app (w r : str) :
  Forall (fun c => is_space c = false) w -> w <> [] ->
  lstrip (w ++ r) = w ++ r.
Proof. destruct 1 as [|c w Hc _]; [done|]. intros _. cbn. by rewrite Hc. Qed.

Lemma lstrip_spaces_app (w r : str) :
  Forall (fun c => is_space c = true) w -> lstrip (w ++ r) = lstrip r.
Proof. induction 1 as [|c w Hc _ IH]; [done|]. cbn. by rewrite Hc. Qed.

Lemma rstrip_keep (pre w tail : str) :
  Forall (fun c => is_space c = false) w -> w <> [] ->
  Forall (fun c => is_space c = true) tail ->
  rstrip (pre ++ w ++ tail) = pre ++ w.
Proof.
  intros Hw Hne Htail. unfold rstrip. rewrite !reverse_app.
  rewrite <- app_assoc, lstrip_spaces_app by (by apply Forall_reverse).
  rewrite lstrip_nonspace_app.
  - by rewrite reverse_app, !reverse_involutive.
  - by apply Forall_reverse.
  - intros Hr. apply Hne. by rewrite <- (reverse_involutive w), Hr.
Qed.

Lemma strip_framed (c : ascii) (mid w tail : str) :
  is_space c = false ->
  Forall (fun c => is_space c = false) w -> w <> [] ->
  Forall (fun c => is_space c = true) tail ->
  strip (c :: mid ++ w ++ tail) = c :: mid ++ w.
Proof.
  intros Hc Hw Hne Htail. unfold strip. cbn [lstrip]. rewrite Hc.
  by apply (rstrip_keep (c :: mid)).
Qed.

Lemma split_on_app_sep (sep : ascii) (l r : str) :
  sep ∉ l -> split_on sep (l ++ sep :: r) = l :: split_on sep r.
Proof.
  induction l as [|c l IH]; intros Hl; cbn.
  - by rewrite decide_True.
  - rewrite decide_False by (intros ->; apply Hl; by left).
    rewrite IH; [done|]. intros ?. apply Hl. by right.
Qed.

Lemma split_on_no_sep (sep : ascii) (l : str) :
  sep ∉ l -> split_on sep l = [l].
Proof.
  induction l as [|c l IH]; intros Hl; cbn; [done|].
  rewrite decide_False by (intros ->; apply Hl; by left).
  rewrite IH; [done|]. intros ?. apply Hl. by right.
Qed.

Lemma split_ws_word (w : str) :
  Forall (fun c => is_space c = false) w -> w <> [] -> split_ws w = [w].
Proof.
  induction 1 as [|c w Hc Hw IH]; [done|]. intros _. cbn [split_ws].
  rewrite Hc. destruct w as [|d w]; [done|].
  apply Forall_cons in Hw as [Hd Hw']. rewrite Hd.
  by rewrite IH.
Qed.

(** A numeral as the device writes it: not empty, without whitespace. *)
Definition numeral (token : str) : Prop :=
  token <> [] /\ Forall (fun c => is_space c = false) token.

Lemma format_line_no_newline (token : str) :
  numeral token -> newline ∉ format_line token.
Proof.
  unfold numeral. intros [_ Hw] Hin. unfold format_line in Hin.
  apply elem_of_cons in Hin as [Hin|Hin]; [done|].
  apply elem_of_cons in Hin as [Hin|Hin]; [done|].
  rewrite Forall_forall in Hw. by specialize (Hw _ Hin).
Qed.

Lemma split_on_join_lines (tokens : list str) :
  tokens <> [] -> Forall numeral tokens ->
  split_on newline (join_lines (map format_line tokens))
  = map format_line tokens.
Proof.
  intros Hne Hall. induction Hall as [|tok rest Htok Hrest IH]; [done|].
  destruct rest as [|tok' rest].
  - cbn [map join_lines]. apply split_on_no_sep.
    by apply format_line_no_newline.
  - change (join_lines (map format_line (tok :: tok' :: rest)))
      with (format_line tok
            ++ newline :: join_lines (map format_line (tok' :: rest))).
    rewrite split_on_app_sep by (by apply format_line_no_newline).
    by rewrite IH.
Qed.

Lemma join_lines_framed (tokens : list str) :
  tokens <> [] -> Forall numeral tokens ->
  exists mid w,
    join_lines (map format_line tokens) = ("Z"%char :: mid) ++ w
    /\ Forall (fun c => is_space c = false) w /\ w <> [].
Proof.
  intros Hne Hall. induction Hall as [|tok rest Hnum Hrest IH]; [done|].
  destruct Hnum as [Htok Hw].
  destruct rest as [|tok' rest].
  - exists [" "%char], tok. by split_and!.
  - destruct IH as (mid & w & E & Hw' & Hne'); [done|].
    change (join_lines (map format_line (tok :: tok' :: rest)))
      with (format_line tok
            ++ newline :: join_lines (map format_line (tok' :: rest))).
    rewrite E.
    exists (" "%char :: tok ++ newline :: "Z"%char :: mid), w.
    split_and!; [|done|done].
    unfold format_line. cbn. by rewrite <- !app_assoc.
Qed.

Section RoundTrip.

Variable py_int : str -> option Z.

Lemma extract_lines_formatted (tokens : list str) (values : list Z) :
  Forall2 (fun token value => numeral token /\ py_int token = Some value)
    tokens values ->
  extract_lines py_int (map format_line tokens) = (values, []).
Proof.
  induction 1 as [|tok v tokens values [Hnum Hint] _ IH]; [done|].
  destruct Hnum as [Hne Hw].
  cbn [map extract_lines]. rewrite IH.
  assert (strip (format_line tok) = format_line tok) as ->.
  { unfold format_line.
    pose proof (strip_framed "Z"%char [" "%char] tok [] eq_refl Hw Hne
                  ltac:(constructor)) as Hs.
    rewrite app_nil_r in Hs. exact Hs. }
  unfold format_line. cbn [starts_with_marker negb].
  rewrite bool_decide_eq_true_2 by done. cbn [orb negb split_ws].
  change (is_space "Z"%char) with false. change (is_space " "%char) with true.
  cbn iota. rewrite (split_ws_word tok Hw Hne). by rewrite Hint.
Qed.

(** X13. Round trip of the wire format. The body is made of lines "Z",
    a space and a numeral, joined by newlines and followed by any
    whitespace; [int] reads each numeral as some value. Then the extraction
    returns exactly those values, in the order of the lines and without a
    warning, and from Idle the request answers with their number and leaves
    them as the buffer of the new session. *)
Theorem formatted_body_round_trip (tokens : list str) (values : list Z)
    (tail : str) (now : datetime) (s : Server) :
  tokens <> [] ->
  Forall2 (fun token value => numeral token /\ py_int token = Some value)
    tokens values ->
  Forall (fun c => is_space c = true) tail ->
  is_receiving s = false ->
  extract py_int (join_lines (map format_line tokens) ++ tail) = (values, [])
  /\ (co2_data py_int (join_lines (map format_line tokens) ++ tail) now s).1
     = Ok {| status := "success"; received_count := length values |}
  /\ data_stream_buffer
       (co2_data py_int (join_lines (map format_line tokens) ++ tail) now s).2
     = values.
Proof.
  intros Hne Hall Htail Hidle.
  assert (Forall numeral tokens) as Hnum.
  { clear -Hall. induction Hall as [|? ? ? ? [? _] _ IH]; by constructor. }
  assert (extract py_int (join_lines (map format_line tokens) ++ tail)
          = (values, [])) as Hex.
  { unfold extract.
    destruct (join_lines_framed tokens Hne Hnum) as (mid & w & E & Hw & Hwne).
    assert (strip (join_lines (map format_line tokens) ++ tail)
            = join_lines (map format_line tokens)) as ->.
    { rewrite E. cbn [app]. rewrite <- app_assoc.
      by apply strip_framed. }
    rewrite split_on_join_lines by done.
    by apply extract_lines_formatted. }
  split; [done|]. unfold co2_data. rewrite Hex. cbn [fst].
  assert (values <> []) as Hv.
  { destruct Hall; done. }
  destruct (receive_co2_raw_data_accepts values now s Hv)
    as (s' & -> & _ & Hb & _).
  rewrite Hidle in Hb. by split.
Qed.

End RoundTrip.

Lemma formatted_body_round_trip_witness :
  extract decimal_digits
    (join_lines
       (map format_line [["0"; "0"; "4"; "2"; "1"]; ["7"]]%char)
     ++ [newline])
  = ([421; 7], [])
  /\ data_stream_buffer
       (co2_data decimal_digits
          (join_lines
             (map format_line [["0"; "0"; "4"; "2"; "1"]; ["7"]]%char)
           ++ [newline]) 5 initial).2
     = [421; 7].
Proof.
  destruct (formatted_body_round_trip decimal_digits
              [["0"; "0"; "4"; "2"; "1"]; ["7"]]%char [421; 7] [newline]
              5 initial) as (Hex & _ & Hbuf).
  - discriminate.
  - repeat constructor; discriminate.
  - repeat constructor.
  - reflexivity.
  - split; [exact Hex|exact Hbuf].
Defined.

(** ** The extraction goes line by line *)

Lemma split_on_not_nil (sep : ascii) (s : str) : split_on sep s <> [].
Proof.
  destruct s as [|c s]; cbn; [done|].
  destruct (decide (c = sep)); [done|]. by destruct (split_on sep s).
Qed.

Lemma split_on_app (sep : ascii) (a b : str) :
  split_on sep (a ++ sep :: b) = split_on sep a ++ split_on sep b.
Proof.
  induction a as [|c a IH]; cbn.
  - by rewrite decide_True.
  - destruct (decide (c = sep)); [by rewrite IH|].
    rewrite IH. pose proof (split_on_not_nil sep a).
    by destruct (split_on sep a).
Qed.

Lemma split_on_snoc (sep c : ascii) (r : str) :
  exists ps p,
    split_on sep r = ps ++ [p]
    /\ split_on sep (r ++ [c])
       = if decide (c = sep) then ps ++ [p; []] else ps ++ [p ++ [c]].
Proof.
  induction r as [|d r (ps & p & E & E')].
  - exists [], []. split; [done|]. cbn. by destruct (decide (c = sep)).
  - cbn. rewrite E, E'. destruct (decide (d = sep)).
    + exists ([] :: ps), p. split; [done|]. by destruct (decide (c = sep)).
    + destruct ps as [|q ps].
      * exists [], (d :: p). split; [done|]. by destruct (decide (c = sep)).
      * exists ((d :: q) :: ps), p. split; [done|].
        by destruct (decide (c = sep)).
Qed.

Lemma rstrip_snoc_space (r : str) (c : ascii) :
  is_space c = true -> rstrip (r ++ [c]) = rstrip r.
Proof.
  intros Hc. unfold rstrip. rewrite reverse_app, reverse_singleton.
  cbn [app lstrip]. by rewrite Hc.
Qed.

Lemma rstrip_snoc_keep (r : str) (c : ascii) :
  is_space c = false -> rstrip (r ++ [c]) = r ++ [c].
Proof.
  intros Hc. unfold rstrip. rewrite reverse_app, reverse_singleton.
  cbn [app lstrip]. rewrite Hc.
  by rewrite reverse_cons, reverse_involutive.
Qed.

Lemma lstrip_snoc_space (p : str) (c : ascii) :
  is_space c = true ->
  lstrip (p ++ [c])
  = match lstrip p with [] => [] | _ :: _ => lstrip p ++ [c] end.
Proof.
  intros Hc. induction p as [|d p IH]; cbn; [by rewrite Hc|].
  destruct (is_space d); [done|]. done.
Qed.

Lemma strip_cons_space (c : ascii) (p : str) :
  is_space c = true -> strip (c :: p) = strip p.
Proof. intros Hc. unfold strip. cbn. by rewrite Hc. Qed.

Lemma strip_snoc_space (p : str) (c : ascii) :
  is_space c = true -> strip (p ++ [c]) = strip p.
Proof.
  intros Hc. unfold strip. rewrite lstrip_snoc_space by done.
  destruct (lstrip p) as [|d q]; [done|]. by apply rstrip_snoc_space.
Qed.

Section LineByLine.

Variable py_int : str -> option Z.

Lemma extract_lines_app (l1 l2 : list str) :
  extract_lines py_int (l1 ++ l2)
  = ((extract_lines py_int l1).1 ++ (extract_lines py_int l2).1,
     (extract_lines py_int l1).2 ++ (extract_lines py_int l2).2).
Proof.
  induction l1 as [|line l1 IH].
  { cbn. by destruct (extract_lines py_int l2). }
  cbn [app extract_lines]. rewrite IH.
  destruct (extract_lines py_int l1) as [v1 w1].
  destruct (extract_lines py_int l2) as [v2 w2]. cbn [fst snd].
  destruct (negb (starts_with_marker (strip line))); [done|].
  destruct (split_ws (strip line)) as [|? [|token ?]]; try done.
  by destruct (py_int token).
Qed.

Lemma extract_lines_strip_eq (line line' : str) (rest : list str) :
  strip line = strip line' ->
  extract_lines py_int (line :: rest) = extract_lines py_int (line' :: rest).
Proof. intros H. cbn [extract_lines]. by rewrite H. Qed.

Lemma extract_lines_blank (rest : list str) :
  extract_lines py_int ([] :: rest) = extract_lines py_int rest.
Proof. cbn. by destruct (extract_lines py_int rest). Qed.

Lemma extract_lines_lstrip (s : str) :
  extract_lines py_int (split_on newline (lstrip s))
  = extract_lines py_int (split_on newline s).
Proof.
  induction s as [|c s IH]; [done|]. cbn [lstrip].
  destruct (is_space c) eqn:Hc; [|done]. rewrite IH. cbn [split_on].
  destruct (decide (c = newline)); [by rewrite extract_lines_blank|].
  pose proof (split_on_not_nil newline s).
  destruct (split_on newline s) as [|p ps]; [done|].
  apply extract_lines_strip_eq. by rewrite strip_cons_space.
Qed.

Lemma extract_lines_snoc_space (r : str) (c : ascii) :
  is_space c = true ->
  extract_lines py_int (split_on newline (r ++ [c]))
  = extract_lines py_int (split_on newline r).
Proof.
  intros Hc. destruct (split_on_snoc newline c r) as (ps & p & -> & ->).
  destruct (decide (c = newline)).
  - change [p; []] with ([p] ++ [[]]). rewrite app_assoc.
    rewrite (extract_lines_app (ps ++ [p]) [[]]). cbn.
    rewrite !app_nil_r. by destruct (extract_lines py_int (ps ++ [p])).
  - rewrite !extract_lines_app.
    assert (extract_lines py_int [p ++ [c]] = extract_lines py_int [p]) as E.
    { apply extract_lines_strip_eq. by apply strip_snoc_space. }
    by rewrite E.
Qed.

Lemma extract_lines_rstrip (s : str) :
  extract_lines py_int (split_on newline (rstrip s))
  = extract_lines py_int (split_on newline s).
Proof.
  induction s as [|c r IH] using rev_ind; [done|].
  destruct (is_space c) eqn:Hc.
  - by rewrite rstrip_snoc_space, extract_lines_snoc_space.
  - by rewrite rstrip_snoc_keep.
Qed.

(** The outer [strip] of the body changes nothing of what is extracted. *)
Lemma extract_unstripped (body_str : str) :
  extract py_int body_str = extract_lines py_int (split_on newline body_str).
Proof.
  unfold extract, strip. by rewrite extract_lines_rstrip, extract_lines_lstrip.
Qed.

(** X14. The extraction goes line by line: what is extracted from two
    texts separated by a newline is what is extracted from the first
    followed by what is extracted from the second, values and warnings
    alike; so a line that is skipped or refused never affects the values of
    the other lines. Whitespace before or after the body changes nothing. *)
Theorem extraction_is_line_by_line (a b : str) :
  extract py_int (a ++ newline :: b)
  = ((extract py_int a).1 ++ (extract py_int b).1,
     (extract py_int a).2 ++ (extract py_int b).2)
  /\ extract py_int (strip a) = extract py_int a.
Proof.
  split.
  - by rewrite !extract_unstripped, split_on_app, extract_lines_app.
  - rewrite !extract_unstripped. unfold strip.
    by rewrite extract_lines_rstrip, extract_lines_lstrip.
Qed.

End LineByLine.

(** X15. In every reachable state, an answer of the stats endpoint that
    carries statistics has a [last_update] that is set, a number of points
    equal to the counter [total_points_received], and a number of batches
    between one and the number of points. *)
Theorem stats_agree_with_counters (s : Server) (r : stats) :
  reachable s ->
  get_stats s = Ok (Stats r) ->
  is_Some (last_update r)
  /\ Z.of_nat (total_points r) = total_points_received s
  /\ 1 <= total_batches r <= Z.of_nat (total_points r).
Proof.
  intros Hreach Hstats.
  assert (is_receiving s = true) as Hr.
  { destruct (is_receiving s) eqn:Hr; [done|].
    pose proof (inv_idle_empty _ (reachable_monitor_inv s Hreach) Hr) as Hb.
    unfold get_stats in Hstats. by rewrite Hb in Hstats. }
  destruct (reachable_ledger_inv s Hreach) as [Hp Hb _ _ _].
  destruct (reachable_session_inv s Hreach) as [_ Htime].
  specialize (Hp Hr). specialize (Hb Hr).
  unfold get_stats, np_array_int32 in Hstats.
  destruct (data_stream_buffer s) as [|x b] eqn:Hbuf; [done|].
  destruct (forallb is_int32 (x :: b)); [|done].
  cbn [np_min np_max] in Hstats. injection Hstats as <-.
  cbn [last_update total_points total_batches length] in *.
  split_and!; [by apply Htime|lia|lia|lia].
Qed.

Lemma stats_agree_with_counters_witness :
  is_Some (Some 0)
  /\ Z.of_nat 3
     = total_points_received
         (run [EvPost [1; 2; 3] 0; EvTimer 0 0 true] initial).
Proof.
  destruct (stats_agree_with_counters
              (run [EvPost [1; 2; 3] 0; EvTimer 0 0 true] initial)
              {| stats_status := Active; total_points := 3;
                 total_batches := 1; average := np_mean [1; 2; 3];
                 stats_min := 1; stats_max := 3;
                 std_squared := np_var [1; 2; 3]; last_update := Some 0 |})
    as (Hupd & Hpts & _).
  - apply reachable_run, reachable_initial.
  - rewrite (get_stats_of_buffer _ 1 [2; 3]).
    + reflexivity.
    + reflexivity.
    + repeat constructor; discriminate.
  - split; [exact Hupd|exact Hpts].
Defined.
